(** * Course-Scheduler: a shallow embedding of [main.py] and its properties

    The program is a Tkinter application that lets a student enter courses,
    each with several alternative sections [(day, start, end)], stores them
    per student id in one JSON file, and enumerates every choice of one
    section per course in which no two sections overlap.

    Modelling choices, kept close to the Python source:
    - a Python [str] is a [string] read as a sequence of code points below
      256, one character of the [string] for each; on these [lower] and
      [strip] follow the Unicode tables Python uses (the capital letters and
      the white space of that range) and the only decimal digits are [0]
      to [9]; strings with a code point from 256 on are outside the
      model;
    - a [datetime.time] is a record of its four integer fields, compared as
      CPython compares naive times, lexicographically on
      [(hour, minute, second, microsecond)];
    - a Python [dict] with string keys is an association list in insertion
      order, because [itertools.product] and the list boxes follow that
      order;
    - the application object is a record of its attributes and of the widget
      contents its callbacks read or write; the data file is a field of the
      same record, together with the fault (if any) the next write meets:
      a failure to open the file, which leaves it as it is, or a failure
      after [open] has emptied it, which leaves an empty or partial text
      that no longer parses; the file itself is absent, unparsable or a
      table of students of the shape the program writes;
    - an exception that leaves a callback is an explicit outcome carrying the
      state reached when it was raised. *)

From Stdlib Require Import ZArith List String Ascii DecimalString Bool Lia.
From Stdlib Require Import Sorted Permutation.
Import ListNotations.

Local Open Scope string_scope.
Local Open Scope list_scope.
Local Open Scope Z_scope.

(** ** Python strings *)

Definition nl : string := String (ascii_of_nat 10) EmptyString.

(** The capital letters below 256: [A] to [Z], and U+00C0 to U+00DE
    without the multiplication sign U+00D7. *)
Definition is_upper (c : ascii) : bool :=
  let n := nat_of_ascii c in
  ((65 <=? n)%nat && (n <=? 90)%nat)
  || ((192 <=? n)%nat && (n <=? 222)%nat && negb (n =? 215)%nat).

(** The small letters below 256 whose capital is below 256 too: [a] to [z],
    and U+00E0 to U+00FE without the division sign U+00F7. *)
Definition has_capital (c : ascii) : bool :=
  let n := nat_of_ascii c in
  ((97 <=? n)%nat && (n <=? 122)%nat)
  || ((224 <=? n)%nat && (n <=? 254)%nat && negb (n =? 247)%nat).

(** The lower case of a character: every capital letter has its small
    letter 32 places further. *)
Definition char_lower (c : ascii) : ascii :=
  if is_upper c then ascii_of_nat (nat_of_ascii c + 32) else c.

(** The title case of a character, where it is one character below 256.
    Three characters have another title case in Python: the sharp s U+00DF
    becomes the two letters [Ss], which [capitalize] below does, and the
    micro sign U+00B5 and U+00FF become U+039C and U+0178, which the
    strings of the model do not have; these two are left as they are. *)
Definition char_title (c : ascii) : ascii :=
  if has_capital c then ascii_of_nat (nat_of_ascii c - 32) else c.

(** [s.lower()] *)
Fixpoint lower (s : string) : string :=
  match s with
  | EmptyString => EmptyString
  | String c r => String (char_lower c) (lower r)
  end.

(** [s.capitalize()]: the first character in title case, the rest in lower
    case. *)
Definition capitalize (s : string) : string :=
  match s with
  | EmptyString => EmptyString
  | String c r =>
      if (nat_of_ascii c =? 223)%nat then String "S" (String "s" (lower r))
      else String (char_title c) (lower r)
  end.

(** The characters below 256 that [str.strip()] removes: U+0009 to U+000D,
    U+001C to U+0020, U+0085 and U+00A0. *)
Definition is_space (c : ascii) : bool :=
  let n := nat_of_ascii c in
  ((9 <=? n)%nat && (n <=? 13)%nat) || ((28 <=? n)%nat && (n <=? 32)%nat)
  || (n =? 133)%nat || (n =? 160)%nat.

Fixpoint lstrip (s : string) : string :=
  match s with
  | EmptyString => EmptyString
  | String c r => if is_space c then lstrip r else s
  end.

Fixpoint rstrip (s : string) : string :=
  match s with
  | EmptyString => EmptyString
  | String c r =>
      match rstrip r with
      | EmptyString => if is_space c then EmptyString else String c EmptyString
      | r' => String c r'
      end
  end.

(** [s.strip()] *)
Definition strip (s : string) : string := rstrip (lstrip s).

(** Truth value of a string: [not s] holds of the empty string only. *)
Definition str_truthy (s : string) : bool :=
  match s with EmptyString => false | _ => true end.

(** ** [datetime.time] *)

Record time : Type := mk_time
  { hour : Z; minute : Z; second : Z; microsecond : Z }.

Inductive exn : Type :=
| ValueError (msg : string)
| OverflowError (msg : string)
| KeyError (key : string)
| IndexError (msg : string).

(** The integers that fit the C [int] the constructor of [time] converts its
    arguments to. *)
Definition fits_c_int (z : Z) : bool := (- 2147483648 <=? z) && (z <=? 2147483647).

(** [time(hour=h, minute=m)]: both arguments are first converted to C
    integers, which raises [OverflowError] for one that does not fit; then
    the constructor checks the ranges, raising [ValueError], and leaves
    seconds and microseconds at zero. *)
Definition time_new (h m : Z) : exn + time :=
  if negb (fits_c_int h && fits_c_int m)
  then inl (OverflowError "Python int too large to convert to C int")
  else if negb ((0 <=? h) && (h <=? 23)) then inl (ValueError "hour must be in 0..23")
  else if negb ((0 <=? m) && (m <=? 59)) then inl (ValueError "minute must be in 0..59")
  else inr (mk_time h m 0 0).

(** Comparison of two naive times: the tuples of fields, lexicographically. *)
Definition time_cmp (a b : time) : comparison :=
  match hour a ?= hour b with
  | Eq =>
      match minute a ?= minute b with
      | Eq =>
          match second a ?= second b with
          | Eq => microsecond a ?= microsecond b
          | c => c
          end
      | c => c
      end
  | c => c
  end.

Definition time_lt (a b : time) : bool :=
  match time_cmp a b with Lt => true | _ => false end.
Definition time_gt (a b : time) : bool :=
  match time_cmp a b with Gt => true | _ => false end.
Definition time_le (a b : time) : bool :=
  match time_cmp a b with Gt => false | _ => true end.

(** ** Sections and the overlap test *)

(** A section is the tuple [(day_of_week, start_time, end_time)]. *)
Definition section : Type := (string * time * time)%type.

Definition sec_day (s : section) : string := fst (fst s).
Definition sec_start (s : section) : time := snd (fst s).
Definition sec_end (s : section) : time := snd s.

Definition times_overlap (section1 section2 : section) : bool :=
  let '(day1, start1, end1) := section1 in
  let '(day2, start2, end2) := section2 in
  if negb (String.eqb (lower day1) (lower day2)) then false
  else time_lt start1 end2 && time_gt end1 start2.

(** [range(a, b)] *)
Definition range (a b : nat) : list nat := seq a (b - a).

(** The test in the body of the two loops: [times_overlap(schedule[i],
    schedule[j])].  Both indices come from [range(len(schedule))], so the
    lookups succeed. *)
Definition overlap_at (schedule : list section) (i j : nat) : bool :=
  match nth_error schedule i, nth_error schedule j with
  | Some a, Some b => times_overlap a b
  | _, _ => false
  end.

(** The nested loops return [False] at the first overlapping pair and [True]
    when they run to completion. *)
Definition is_valid_schedule (schedule : list section) : bool :=
  let n := List.length schedule in
  negb (existsb
          (fun i => existsb (fun j => overlap_at schedule i j)
                            (range (i + 1) n))
          (range 0 n)).

(** ** Day order and the time format *)

(** The module-level table [day_order]. *)
Definition day_order : list (string * Z) :=
  [ ("monday", 0); ("tuesday", 1); ("wednesday", 2); ("thursday", 3);
    ("friday", 4); ("saturday", 5); ("sunday", 6) ].

(** ** Dictionaries with string keys, in insertion order *)

Section Dict.
Context {V : Type}.

Definition dict : Type := list (string * V).

(** [d.get(k)] *)
Fixpoint dict_get (k : string) (d : dict) : option V :=
  match d with
  | [] => None
  | (k', v) :: r => if String.eqb k k' then Some v else dict_get k r
  end.

(** [k in d] *)
Definition dict_in (k : string) (d : dict) : bool :=
  match dict_get k d with Some _ => true | None => false end.

(** [d[k] = v]: an existing key keeps its position, a new key goes last. *)
Fixpoint dict_set (k : string) (v : V) (d : dict) : dict :=
  match d with
  | [] => [(k, v)]
  | (k', v') :: r =>
      if String.eqb k k' then (k, v) :: r else (k', v') :: dict_set k v r
  end.

(** [del d[k]]; [None] stands for the [KeyError] of an absent key. *)
Fixpoint dict_del (k : string) (d : dict) : option dict :=
  match d with
  | [] => None
  | (k', v') :: r =>
      if String.eqb k k' then Some r
      else match dict_del k r with
           | Some r' => Some ((k', v') :: r')
           | None => None
           end
  end.

(** [d.keys()] *)
Definition dict_keys (d : dict) : list string := map fst d.

(** A Python dictionary holds each key once. *)
Definition dict_wf (d : dict) : Prop := NoDup (dict_keys d).
End Dict.

Arguments dict V : clear implicits.

(** [day_order.get(day_str.lower(), 999)] *)
Definition get_day_index (day_str : string) : Z :=
  match dict_get (lower day_str) day_order with
  | Some i => i
  | None => 999
  end.

(** The decimal digit [d] (for [0 <= d <= 9]) as a character. *)
Definition digit_char (d : Z) : ascii := ascii_of_nat (48 + Z.to_nat d).

(** The conversion [%02d] of [strftime] for a field below 100. *)
Definition two_digits (n : Z) : string :=
  String (digit_char (n / 10)) (String (digit_char (n mod 10)) EmptyString).

(** [t.strftime("%H:%M")] *)
Definition time_to_string (t : time) : string :=
  two_digits (hour t) ++ ":" ++ two_digits (minute t).

Definition is_digit (c : ascii) : bool :=
  let n := nat_of_ascii c in (48 <=? n)%nat && (n <=? 57)%nat.

Definition digit_val (c : ascii) : Z := Z.of_nat (nat_of_ascii c - 48).

Definition char_in (c : ascii) (lo hi : nat) : bool :=
  let n := nat_of_ascii c in (lo <=? n)%nat && (n <=? hi)%nat.

(** [strptime] turns the directive [%H] into the regular expression
    [2[0-3]|[0-1]\d|\d] and [%M] into [[0-5]\d|\d].  Each function lists, in
    the order the regular-expression engine tries them, the ways the
    directive can match a prefix of the text: the value read and the text
    left. *)
Definition match_H (s : string) : list (Z * string) :=
  (match s with
   | String a (String b r) =>
       (if Ascii.eqb a "2" && char_in b 48 51 then [(20 + digit_val b, r)] else [])
       ++ (if char_in a 48 49 && is_digit b
           then [(10 * digit_val a + digit_val b, r)] else [])
   | _ => []
   end)
  ++ (match s with
      | String a r => if is_digit a then [(digit_val a, r)] else []
      | EmptyString => []
      end).

Definition match_M (s : string) : list (Z * string) :=
  (match s with
   | String a (String b r) =>
       if char_in a 48 53 && is_digit b
       then [(10 * digit_val a + digit_val b, r)] else []
   | _ => []
   end)
  ++ (match s with
      | String a r => if is_digit a then [(digit_val a, r)] else []
      | EmptyString => []
      end).

(** The first way (with backtracking over the alternatives) in which
    [%H:%M] matches a prefix of [s]: hour, minute and the text left. *)
Fixpoint first_match (hs : list (Z * string)) : option (Z * Z * string) :=
  match hs with
  | [] => None
  | (h, r) :: hs' =>
      match r with
      | String c r' =>
          if Ascii.eqb c ":" then
            match match_M r' with
            | (m, rest) :: _ => Some (h, m, rest)
            | [] => first_match hs'
            end
          else first_match hs'
      | EmptyString => first_match hs'
      end
  end.

(** [datetime.strptime(s, "%H:%M").time()]: the format must match at the
    start of [s] and leave nothing unconverted. *)
Definition string_to_time (s : string) : exn + time :=
  match first_match (match_H s) with
  | None => inl (ValueError "time data does not match format")
  | Some (h, m, rest) =>
      match rest with
      | EmptyString => inr (mk_time h m 0 0)
      | _ => inl (ValueError "unconverted data remains")
      end
  end.

(** ** The application state *)

(** A section as the JSON file holds it: [[day, "HH:MM", "HH:MM"]]. *)
Definition stored_section : Type := (string * string * string)%type.

(** The value stored for one student: [{"courses": {name: [section, ...]}}]. *)
Record user_record : Type := mk_user
  { courses : dict (list stored_section) }.

Definition users_table : Type := dict user_record.

(** What [json.load] makes of the data file: a [JSONDecodeError], or the
    table of all students. *)
Inductive file_contents : Type :=
| Unparsable
| Json (data : users_table).

(** What can go wrong when the file is written: [open] fails and the file
    stays as it is, or [open] has emptied the file and writing or closing
    fails, which leaves an empty or partial text.  Each carries the text of
    the exception. *)
Inductive write_fault : Type :=
| OpenFails (reason : string)
| WriteFails (reason : string).

Definition fault_reason (f : write_fault) : string :=
  match f with OpenFails reason => reason | WriteFails reason => reason end.

(** The file after a write that met the fault [f]: a strict prefix of the
    text of a JSON object does not parse. *)
Definition file_after_fault (f : write_fault) (fs : option file_contents)
  : option file_contents :=
  match f with
  | OpenFails _ => fs
  | WriteFails _ => Some Unparsable
  end.

Record app : Type := mk_app
  { (* attributes of the object *)
    users_data : users_table;
    active_student_id : option string;
    active_courses : dict (list section);
    current_course_sections : list section;
    (* contents of the widgets *)
    entry_student_id : string;
    entry_course_name : string;
    day_var : string;
    start_hour_var : Z;
    start_min_var : Z;
    end_hour_var : Z;
    end_min_var : Z;
    current_sections_listbox : list string;
    saved_courses_listbox : list string;
    output_box : string;
    (* the file [schedules_data.json] ([None]: no such file) and the error,
       if any, that opening it for writing raises *)
    disk_file : option file_contents;
    write_error : option write_fault }.

Definition set_users_data (v : users_table) (st : app) : app :=
  mk_app v (active_student_id st) (active_courses st) (current_course_sections st) (entry_student_id st) (entry_course_name st) (day_var st) (start_hour_var st) (start_min_var st) (end_hour_var st) (end_min_var st) (current_sections_listbox st) (saved_courses_listbox st) (output_box st) (disk_file st) (write_error st).
Definition set_active_student_id (v : option string) (st : app) : app :=
  mk_app (users_data st) v (active_courses st) (current_course_sections st) (entry_student_id st) (entry_course_name st) (day_var st) (start_hour_var st) (start_min_var st) (end_hour_var st) (end_min_var st) (current_sections_listbox st) (saved_courses_listbox st) (output_box st) (disk_file st) (write_error st).
Definition set_active_courses (v : dict (list section)) (st : app) : app :=
  mk_app (users_data st) (active_student_id st) v (current_course_sections st) (entry_student_id st) (entry_course_name st) (day_var st) (start_hour_var st) (start_min_var st) (end_hour_var st) (end_min_var st) (current_sections_listbox st) (saved_courses_listbox st) (output_box st) (disk_file st) (write_error st).
Definition set_current_course_sections (v : list section) (st : app) : app :=
  mk_app (users_data st) (active_student_id st) (active_courses st) v (entry_student_id st) (entry_course_name st) (day_var st) (start_hour_var st) (start_min_var st) (end_hour_var st) (end_min_var st) (current_sections_listbox st) (saved_courses_listbox st) (output_box st) (disk_file st) (write_error st).
Definition set_entry_student_id (v : string) (st : app) : app :=
  mk_app (users_data st) (active_student_id st) (active_courses st) (current_course_sections st) v (entry_course_name st) (day_var st) (start_hour_var st) (start_min_var st) (end_hour_var st) (end_min_var st) (current_sections_listbox st) (saved_courses_listbox st) (output_box st) (disk_file st) (write_error st).
Definition set_entry_course_name (v : string) (st : app) : app :=
  mk_app (users_data st) (active_student_id st) (active_courses st) (current_course_sections st) (entry_student_id st) v (day_var st) (start_hour_var st) (start_min_var st) (end_hour_var st) (end_min_var st) (current_sections_listbox st) (saved_courses_listbox st) (output_box st) (disk_file st) (write_error st).
Definition set_day_var (v : string) (st : app) : app :=
  mk_app (users_data st) (active_student_id st) (active_courses st) (current_course_sections st) (entry_student_id st) (entry_course_name st) v (start_hour_var st) (start_min_var st) (end_hour_var st) (end_min_var st) (current_sections_listbox st) (saved_courses_listbox st) (output_box st) (disk_file st) (write_error st).
Definition set_start_hour_var (v : Z) (st : app) : app :=
  mk_app (users_data st) (active_student_id st) (active_courses st) (current_course_sections st) (entry_student_id st) (entry_course_name st) (day_var st) v (start_min_var st) (end_hour_var st) (end_min_var st) (current_sections_listbox st) (saved_courses_listbox st) (output_box st) (disk_file st) (write_error st).
Definition set_start_min_var (v : Z) (st : app) : app :=
  mk_app (users_data st) (active_student_id st) (active_courses st) (current_course_sections st) (entry_student_id st) (entry_course_name st) (day_var st) (start_hour_var st) v (end_hour_var st) (end_min_var st) (current_sections_listbox st) (saved_courses_listbox st) (output_box st) (disk_file st) (write_error st).
Definition set_end_hour_var (v : Z) (st : app) : app :=
  mk_app (users_data st) (active_student_id st) (active_courses st) (current_course_sections st) (entry_student_id st) (entry_course_name st) (day_var st) (start_hour_var st) (start_min_var st) v (end_min_var st) (current_sections_listbox st) (saved_courses_listbox st) (output_box st) (disk_file st) (write_error st).
Definition set_end_min_var (v : Z) (st : app) : app :=
  mk_app (users_data st) (active_student_id st) (active_courses st) (current_course_sections st) (entry_student_id st) (entry_course_name st) (day_var st) (start_hour_var st) (start_min_var st) (end_hour_var st) v (current_sections_listbox st) (saved_courses_listbox st) (output_box st) (disk_file st) (write_error st).
Definition set_current_sections_listbox (v : list string) (st : app) : app :=
  mk_app (users_data st) (active_student_id st) (active_courses st) (current_course_sections st) (entry_student_id st) (entry_course_name st) (day_var st) (start_hour_var st) (start_min_var st) (end_hour_var st) (end_min_var st) v (saved_courses_listbox st) (output_box st) (disk_file st) (write_error st).
Definition set_saved_courses_listbox (v : list string) (st : app) : app :=
  mk_app (users_data st) (active_student_id st) (active_courses st) (current_course_sections st) (entry_student_id st) (entry_course_name st) (day_var st) (start_hour_var st) (start_min_var st) (end_hour_var st) (end_min_var st) (current_sections_listbox st) v (output_box st) (disk_file st) (write_error st).
Definition set_output_box (v : string) (st : app) : app :=
  mk_app (users_data st) (active_student_id st) (active_courses st) (current_course_sections st) (entry_student_id st) (entry_course_name st) (day_var st) (start_hour_var st) (start_min_var st) (end_hour_var st) (end_min_var st) (current_sections_listbox st) (saved_courses_listbox st) v (disk_file st) (write_error st).
Definition set_disk_file (v : option file_contents) (st : app) : app :=
  mk_app (users_data st) (active_student_id st) (active_courses st) (current_course_sections st) (entry_student_id st) (entry_course_name st) (day_var st) (start_hour_var st) (start_min_var st) (end_hour_var st) (end_min_var st) (current_sections_listbox st) (saved_courses_listbox st) (output_box st) v (write_error st).
Definition set_write_error (v : option write_fault) (st : app) : app :=
  mk_app (users_data st) (active_student_id st) (active_courses st) (current_course_sections st) (entry_student_id st) (entry_course_name st) (day_var st) (start_hour_var st) (start_min_var st) (end_hour_var st) (end_min_var st) (current_sections_listbox st) (saved_courses_listbox st) (output_box st) (disk_file st) v.

(** The outcome of a callback: it returns, or an exception leaves it. *)
Inductive outcome : Type :=
| Done (st : app)
| Raised (e : exn) (st : app).

Definition state_of (o : outcome) : app :=
  match o with Done st => st | Raised _ st => st end.

(** The object as [__init__] leaves it; [fs] and [err] describe the disk. *)
Definition init (fs : option file_contents) (err : option write_fault) : app :=
  mk_app [] None [] [] EmptyString EmptyString "Monday" 8 30 10 20 [] []
         EmptyString fs err.

(** Truth value of [self.active_student_id]. *)
Definition sid_truthy (o : option string) : bool :=
  match o with Some s => str_truthy s | None => false end.

Definition sid_text (o : option string) : string :=
  match o with Some s => s | None => "None" end.

Definition output_message (msg : string) (st : app) : app :=
  set_output_box (output_box st ++ msg ++ nl) st.

Definition refresh_saved_courses_listbox (st : app) : app :=
  set_saved_courses_listbox (dict_keys (active_courses st)) st.

(** The line a list box or the output box shows for a section. *)
Definition section_line (x : section) : string :=
  let '(day, st, et) := x in
  day ++ ", " ++ time_to_string st ++ " - " ++ time_to_string et.

(** ** Loading and saving a student *)

(** The inner loop of [load_student_data]: every stored triple is parsed
    into a section; the first time that does not parse raises. *)
Fixpoint parse_sections (sections : list stored_section) : exn + list section :=
  match sections with
  | [] => inr []
  | (day, start_str, end_str) :: r =>
      match string_to_time start_str with
      | inl e => inl e
      | inr start_t =>
          match string_to_time end_str with
          | inl e => inl e
          | inr end_t =>
              match parse_sections r with
              | inl e => inl e
              | inr ts => inr ((day, start_t, end_t) :: ts)
              end
          end
      end
  end.

(** The outer loop: [self.active_courses[cname] = time_sections] for every
    course; on an exception the courses set so far remain. *)
Fixpoint load_courses (items : list (string * list stored_section))
    (acc : dict (list section)) : (exn * dict (list section)) + dict (list section) :=
  match items with
  | [] => inr acc
  | (cname, sections) :: r =>
      match parse_sections sections with
      | inl e => inl (e, acc)
      | inr ts => load_courses r (dict_set cname ts acc)
      end
  end.

(** [if sid not in self.users_data: self.users_data[sid] = {"courses": {}}] *)
Definition ensure_student (sid : string) (st : app) : app :=
  if negb (dict_in sid (users_data st))
  then set_users_data (dict_set sid (mk_user []) (users_data st)) st
  else st.

(** The file is read only when it exists; a [JSONDecodeError] resets the
    table. *)
Definition read_data_file (st : app) : app :=
  match disk_file st with
  | Some (Json d) => set_users_data d st
  | Some Unparsable => set_users_data [] st
  | None => st
  end.

Definition load_student_data (st : app) : outcome :=
  let sid := strip (entry_student_id st) in
  if negb (str_truthy sid)
  then Done (output_message "Please enter a valid Student ID first." st)
  else
    let st := read_data_file st in
    let st := ensure_student sid st in
    let st := set_active_student_id (Some sid) st in
    let st := set_active_courses [] st in
    match dict_get sid (users_data st) with
    | None => Raised (KeyError sid) st
    | Some u =>
        match load_courses (courses u) [] with
        | inl (e, acc) => Raised e (set_active_courses acc st)
        | inr acc =>
            let st := set_active_courses acc st in
            let st := refresh_saved_courses_listbox st in
            Done (output_message ("Loaded data for student ID: " ++ sid) st)
        end
    end.

Definition string_section (x : section) : stored_section :=
  let '(day, st, et) := x in (day, time_to_string st, time_to_string et).

(** [final_dict], filled course by course. *)
Definition final_dict (active : dict (list section)) : dict (list stored_section) :=
  fold_left (fun acc item => dict_set (fst item) (map string_section (snd item)) acc)
            active [].

Definition save_student_data (auto : bool) (st : app) : app :=
  if negb (sid_truthy (active_student_id st))
  then
    if negb auto
    then output_message "No active student selected. Please enter Student ID and Load." st
    else st
  else
    let sid := sid_text (active_student_id st) in
    let st := ensure_student sid st in
    let st := set_users_data
                (dict_set sid (mk_user (final_dict (active_courses st))) (users_data st))
                st in
    match write_error st with
    | None =>
        let st := set_disk_file (Some (Json (users_data st))) st in
        if negb auto
        then output_message ("Data saved for student ID '" ++ sid ++ "'.") st
        else st
    | Some f =>
        let st := set_disk_file (file_after_fault f (disk_file st)) st in
        if negb auto
        then output_message ("Error saving data: " ++ fault_reason f) st
        else st
    end.

(** One tick of the periodic save (the timer that calls it again is not
    part of the state). *)
Definition auto_save (st : app) : app :=
  if sid_truthy (active_student_id st) then save_student_data true st else st.

(** ** The course editor *)

(** Only a [ValueError] of the two constructions is caught; any other
    exception leaves the callback before anything was changed. *)
Definition add_section (st : app) : outcome :=
  let day := capitalize (day_var st) in
  match time_new (start_hour_var st) (start_min_var st) with
  | inl (ValueError _) => Done (output_message "Invalid time values." st)
  | inl e => Raised e st
  | inr start_time =>
      match time_new (end_hour_var st) (end_min_var st) with
      | inl (ValueError _) => Done (output_message "Invalid time values." st)
      | inl e => Raised e st
      | inr end_time =>
          if time_le end_time start_time
          then Done (output_message "End time must be after start time." st)
          else
            let x := (day, start_time, end_time) in
            let st := set_current_course_sections
                        (current_course_sections st ++ [x]) st in
            Done (set_current_sections_listbox
                    (current_sections_listbox st ++ [section_line x]) st)
      end
  end.

(** The list without its element at index [i] (unchanged when there is
    none). *)
Fixpoint remove_nth {A : Type} (i : nat) (l : list A) : list A :=
  match l, i with
  | [], _ => []
  | _ :: r, O => r
  | x :: r, S i' => x :: remove_nth i' r
  end.

(** [selection] is what [curselection()] returns. *)
Definition delete_section (selection : list nat) (st : app) : outcome :=
  match selection with
  | [] => Done (output_message "No section selected." st)
  | index_to_remove :: _ =>
      let st := set_current_sections_listbox
                  (remove_nth index_to_remove (current_sections_listbox st)) st in
      if (index_to_remove <? List.length (current_course_sections st))%nat
      then
        let st := set_current_course_sections
                    (remove_nth index_to_remove (current_course_sections st)) st in
        Done (output_message "Deleted selected section." st)
      else Raised (IndexError "pop index out of range") st
  end.

(** The three statements that empty the editor. *)
Definition clear_current_course (st : app) : app :=
  set_current_course_sections []
    (set_current_sections_listbox [] (set_entry_course_name EmptyString st)).

Definition save_course (st : app) : app :=
  if negb (sid_truthy (active_student_id st))
  then output_message "No active student. Please load a student first." st
  else
    let course_name := strip (entry_course_name st) in
    if negb (str_truthy course_name)
    then output_message "Please enter a Course Name." st
    else
      match current_course_sections st with
      | [] => output_message "No sections for this course." st
      | sections =>
          let st := set_active_courses
                      (dict_set course_name sections (active_courses st)) st in
          let st := clear_current_course st in
          let st := refresh_saved_courses_listbox st in
          output_message
            ("Course '" ++ course_name ++ "' saved/updated for student "
               ++ sid_text (active_student_id st) ++ ".") st
      end.

Definition edit_course (selection : list nat) (st : app) : outcome :=
  match selection with
  | [] => Done (output_message "No course selected to edit." st)
  | index :: _ =>
      let course_name := nth index (saved_courses_listbox st) EmptyString in
      let st := clear_current_course st in
      let st := set_entry_course_name course_name st in
      let sections :=
        match dict_get course_name (active_courses st) with
        | Some l => l
        | None => []
        end in
      let st := set_current_course_sections sections st in
      let st := set_current_sections_listbox (map section_line sections) st in
      match dict_del course_name (active_courses st) with
      | None => Raised (KeyError course_name) st
      | Some d =>
          let st := set_active_courses d st in
          let st := refresh_saved_courses_listbox st in
          Done (output_message
                  ("Course '" ++ course_name
                     ++ "' loaded for editing. Make changes and click 'Save/Update Course'.")
                  st)
      end
  end.

Definition delete_course (selection : list nat) (st : app) : app :=
  match selection with
  | [] => output_message "No course selected to delete." st
  | index_to_remove :: _ =>
      let course_name := nth index_to_remove (saved_courses_listbox st) EmptyString in
      let st :=
        match dict_del course_name (active_courses st) with
        | Some d => set_active_courses d st
        | None => st
        end in
      let st := refresh_saved_courses_listbox st in
      output_message ("Course '" ++ course_name ++ "' deleted.") st
  end.

(** ** Generating schedules *)

(** [itertools.product] of the lists: one element from every list, the rightmost
    list varying fastest. *)
Fixpoint product {A : Type} (lists : list (list A)) : list (list A) :=
  match lists with
  | [] => [[]]
  | l :: ls => flat_map (fun x => map (cons x) (product ls)) l
  end.

(** [(self.active_courses[name] for name in course_names)]; [None] stands
    for the [KeyError] the [try] block guards against. *)
Fixpoint sections_of (active : dict (list section)) (course_names : list string)
  : option (list (list section)) :=
  match course_names with
  | [] => Some []
  | name :: r =>
      match dict_get name active, sections_of active r with
      | Some l, Some ls => Some (l :: ls)
      | _, _ => None
      end
  end.

(** An entry of [schedule_info]: [(day, st, et, cname)]. *)
Definition info : Type := (string * time * time * string)%type.

Definition info_day (x : info) : string := fst (fst (fst x)).
Definition info_start (x : info) : time := snd (fst (fst x)).

(** [zip(course_names, schedule)], rearranged. *)
Definition schedule_info (course_names : list string) (schedule : list section)
  : list info :=
  map (fun p => let '(cname, (day, st, et)) := p in (day, st, et, cname))
      (combine course_names schedule).

(** The sort key [(get_day_index(x[0]), x[1])]. *)
Definition sort_key (x : info) : Z * time :=
  (get_day_index (info_day x), info_start x).

(** [k1 < k2] on the key tuples: the first components decide unless they are
    equal. *)
Definition key_lt (k1 k2 : Z * time) : bool :=
  if fst k1 =? fst k2 then time_lt (snd k1) (snd k2) else fst k1 <? fst k2.

(** [list.sort(key=...)] is a stable sort, which fixes its result: the
    entries in key order, entries of equal key in their original order.
    Insertion from the right computes that list. *)
Fixpoint insert_by_key (x : info) (l : list info) : list info :=
  match l with
  | [] => [x]
  | y :: r =>
      if key_lt (sort_key y) (sort_key x) then y :: insert_by_key x r
      else x :: y :: r
  end.

Definition sort_by_key (l : list info) : list info :=
  fold_right insert_by_key [] l.

(** [str(n)] for a length or a position. *)
Definition str_of_nat (n : nat) : string := NilZero.string_of_uint (Nat.to_uint n).

(** The candidate schedules of a catalog, or [None] on a [KeyError]. *)
Definition all_combinations (active : dict (list section))
  : option (list (list section)) :=
  match sections_of active (dict_keys active) with
  | Some lists => Some (product lists)
  | None => None
  end.

(** [valid_schedules]: the candidates that pass [is_valid_schedule], in the
    order of generation. *)
Definition valid_schedules (active : dict (list section)) : list (list section) :=
  match all_combinations active with
  | Some combos => filter is_valid_schedule combos
  | None => []
  end.

(** The sorted [schedule_info] of every valid schedule: what the second loop
    of [generate_schedules] writes out. *)
Definition displayed_schedules (active : dict (list section)) : list (list info) :=
  map (fun schedule => sort_by_key (schedule_info (dict_keys active) schedule))
      (valid_schedules active).

Definition info_line (x : info) : string :=
  let '(day, st, et, cname) := x in
  day ++ ", " ++ time_to_string st ++ " - " ++ time_to_string et ++ ": " ++ cname ++ nl.

(** The text written for the schedules from position [idx] on. *)
Fixpoint render_schedules (idx : nat) (l : list (list info)) : string :=
  match l with
  | [] => EmptyString
  | sched :: r =>
      ("--- Schedule #" ++ str_of_nat idx ++ " ---" ++ nl)
        ++ String.concat EmptyString (map info_line sched) ++ nl
        ++ render_schedules (S idx) r
  end.

Definition generate_schedules (st : app) : app :=
  if negb (sid_truthy (active_student_id st))
  then output_message "No active student. Please load a student first." st
  else
    match active_courses st with
    | [] =>
        output_message
          ("No courses found for student " ++ sid_text (active_student_id st) ++ ".") st
    | _ =>
        match all_combinations (active_courses st) with
        | None =>
            output_message "Error generating schedules. Check your courses data." st
        | Some _ =>
            set_output_box
              (("Found " ++ str_of_nat (List.length (valid_schedules (active_courses st)))
                  ++ " valid schedules for student "
                  ++ sid_text (active_student_id st) ++ "." ++ nl ++ nl)
                 ++ render_schedules 1 (displayed_schedules (active_courses st)))
              st
        end
    end.

(** ** Showing users and courses *)

Definition user_line (user_id : string) : string := "- " ++ user_id ++ nl.

(** [show_all_users] reads the file again; the table in memory is replaced
    only when the file parses. *)
Definition show_all_users (st : app) : app :=
  match disk_file st with
  | None => output_message "No data file found." st
  | Some Unparsable => output_message "Error reading data file." st
  | Some (Json d) =>
      let st := set_users_data d st in
      match d with
      | [] => set_output_box ("No users found." ++ nl) st
      | _ =>
          set_output_box
            (("All Users:" ++ nl ++ nl)
               ++ String.concat EmptyString (map user_line (dict_keys d)))
            st
      end
  end.

(** The lines [show_all_courses] writes for one course. *)
Definition course_text (item : string * list section) : string :=
  ("Course: " ++ fst item ++ nl)
    ++ String.concat EmptyString
         (map (fun x => ("   - " ++ section_line x ++ nl)%string) (snd item))
    ++ nl.

Definition show_all_courses (st : app) : app :=
  if negb (sid_truthy (active_student_id st))
  then set_output_box ("No active student." ++ nl) st
  else
    match active_courses st with
    | [] =>
        set_output_box
          ("No courses saved for student " ++ sid_text (active_student_id st)
             ++ "." ++ nl) st
    | _ =>
        set_output_box
          (("Courses for Student " ++ sid_text (active_student_id st) ++ ":"
              ++ nl ++ nl)
             ++ String.concat EmptyString (map course_text (active_courses st)))
          st
    end.

(** ** The event loop

    What the user and the disk can do between two callbacks, and the
    callbacks the buttons and the timer start.  An exception that leaves a
    callback is reported by Tk and the loop goes on from the state
    reached. *)
Inductive action : Type :=
| TypeStudentId (text : string)
| TypeCourseName (text : string)
| PickDay (day : string)
| SpinStart (h m : Z)
| SpinEnd (h m : Z)
| DiskWrites (err : option write_fault)
| ClickLoad
| ClickSave
| Tick
| ClickShowUsers
| ClickAddSection
| ClickDeleteSection (selection : list nat)
| ClickSaveCourse
| ClickEditCourse (selection : list nat)
| ClickDeleteCourse (selection : list nat)
| ClickShowCourses
| ClickGenerate.

Definition perform (a : action) (st : app) : outcome :=
  match a with
  | TypeStudentId text => Done (set_entry_student_id text st)
  | TypeCourseName text => Done (set_entry_course_name text st)
  | PickDay day => Done (set_day_var day st)
  | SpinStart h m => Done (set_start_min_var m (set_start_hour_var h st))
  | SpinEnd h m => Done (set_end_min_var m (set_end_hour_var h st))
  | DiskWrites err => Done (set_write_error err st)
  | ClickLoad => load_student_data st
  | ClickSave => Done (save_student_data false st)
  | Tick => Done (auto_save st)
  | ClickShowUsers => Done (show_all_users st)
  | ClickAddSection => add_section st
  | ClickDeleteSection selection => delete_section selection st
  | ClickSaveCourse => Done (save_course st)
  | ClickEditCourse selection => edit_course selection st
  | ClickDeleteCourse selection => Done (delete_course selection st)
  | ClickShowCourses => Done (show_all_courses st)
  | ClickGenerate => Done (generate_schedules st)
  end.

Definition run (actions : list action) (st : app) : app :=
  fold_left (fun st a => state_of (perform a st)) actions st.

(** ** Vocabulary of the properties *)

(** Strict and weak order of two times, as propositions on the fields. *)
Definition time_before (a b : time) : Prop :=
  hour a < hour b
  \/ (hour a = hour b
      /\ (minute a < minute b
          \/ (minute a = minute b
              /\ (second a < second b
                  \/ (second a = second b /\ microsecond a < microsecond b))))).

Definition time_not_after (a b : time) : Prop := a = b \/ time_before a b.

(** The values a [datetime.time] can hold. *)
Definition valid_time (t : time) : Prop :=
  0 <= hour t <= 23 /\ 0 <= minute t <= 59
  /\ 0 <= second t <= 59 /\ 0 <= microsecond t <= 999999.

Definition minute_resolution (t : time) : Prop :=
  second t = 0 /\ microsecond t = 0.

(** The minute of the day at which a time to the minute falls. *)
Definition minute_of_day (t : time) : Z := 60 * hour t + minute t.

(** A section with both ends on the clock and to the minute. *)
Definition to_the_minute (x : section) : Prop :=
  valid_time (sec_start x) /\ minute_resolution (sec_start x)
  /\ valid_time (sec_end x) /\ minute_resolution (sec_end x).

(** Two day strings that differ in letter case only. *)
Definition same_day (d1 d2 : string) : Prop := lower d1 = lower d2.

(** Two characters that are the same, or the capital and the small form of
    one letter: [A] to [Z], or U+00C0 to U+00DE without U+00D7, next to the
    character 32 places further. *)
Definition capital_of (n1 n2 : nat) : Prop :=
  ((65 <= n1 <= 90)%nat \/ ((192 <= n1 <= 222)%nat /\ n1 <> 215%nat))
  /\ n2 = (n1 + 32)%nat.

Definition same_letter (c1 c2 : ascii) : Prop :=
  c1 = c2
  \/ capital_of (nat_of_ascii c1) (nat_of_ascii c2)
  \/ capital_of (nat_of_ascii c2) (nat_of_ascii c1).

(** Two day strings that are equal when letter case is ignored: of the same
    length, and letter for letter the same up to case. *)
Fixpoint days_match (d1 d2 : string) : Prop :=
  match d1, d2 with
  | EmptyString, EmptyString => True
  | String c1 r1, String c2 r2 => same_letter c1 c2 /\ days_match r1 r2
  | _, _ => False
  end.




(** A section whose end is strictly after its start. *)
Definition section_ok (x : section) : Prop := time_before (sec_start x) (sec_end x).

(** Order of two entries by [(dayIndex, start)]. *)
Definition key_le (x y : info) : Prop :=
  get_day_index (info_day x) < get_day_index (info_day y)
  \/ (get_day_index (info_day x) = get_day_index (info_day y)
      /\ time_not_after (info_start x) (info_start y)).

(** A catalog of minute-resolution times. *)
Definition catalog_minute_resolution (active : dict (list section)) : Prop :=
  forall cname sections x,
    In (cname, sections) active -> In x sections ->
    valid_time (sec_start x) /\ minute_resolution (sec_start x)
    /\ valid_time (sec_end x) /\ minute_resolution (sec_end x).

(** Two states that differ at most in the text of the output box. *)
Definition same_but_output (st st' : app) : Prop :=
  set_output_box EmptyString st' = set_output_box EmptyString st.

(** Every section the state holds, in the editor or in the catalog of the
    active student, ends strictly after it starts. *)
Definition all_sections_ok (st : app) : Prop :=
  Forall section_ok (current_course_sections st)
  /\ forall cname sections,
       In (cname, sections) (active_courses st) -> Forall section_ok sections.

(** A course of the catalog as [final_dict] holds it. *)
Definition string_course (item : string * list section)
  : string * list stored_section :=
  (fst item, map string_section (snd item)).

(** Equality of two times, field by field, and the check that the time
    [h:m] survives formatting and parsing. *)
Definition time_eqb (a b : time) : bool :=
  (hour a =? hour b) && (minute a =? minute b)
  && (second a =? second b) && (microsecond a =? microsecond b).

Definition roundtrip_at (h m : nat) : bool :=
  let t := mk_time (Z.of_nat h) (Z.of_nat m) 0 0 in
  match string_to_time (time_to_string t) with
  | inr t' => time_eqb t' t
  | inl _ => false
  end.

(** A section that ends after it starts, with both ends to the minute. *)
Definition proper (x : section) : Prop := section_ok x /\ to_the_minute x.

(** A stored triple that is the [HH:MM] form of a proper section. *)
Definition stored_proper (y : stored_section) : Prop :=
  exists x, proper x /\ string_section x = y.

Definition catalog_proper (active : dict (list section)) : Prop :=
  forall cname sections, In (cname, sections) active -> Forall proper sections.

Definition table_ok (d : users_table) : Prop :=
  forall sid u cname sections,
    In (sid, u) d -> In (cname, sections) (courses u) ->
    Forall stored_proper sections.

(** A disk without the data file, or with one that holds proper sections
    only. *)
Definition file_ok (fs : option file_contents) : Prop :=
  match fs with
  | None => True
  | Some Unparsable => False
  | Some (Json d) => table_ok d
  end.

(** The same, or a file that a failed write has left empty or partial. *)
Definition file_safe (fs : option file_contents) : Prop :=
  fs = Some Unparsable \/ file_ok fs.

(** What holds between two callbacks of a session that starts on such a
    disk: the list boxes show what the catalog and the editor hold, and
    every section, in memory or stored, is proper. *)
Definition consistent (st : app) : Prop :=
  dict_wf (active_courses st)
  /\ saved_courses_listbox st = dict_keys (active_courses st)
  /\ current_sections_listbox st = map section_line (current_course_sections st)
  /\ Forall proper (current_course_sections st)
  /\ catalog_proper (active_courses st)
  /\ table_ok (users_data st)
  /\ file_safe (disk_file st).



(** Equality of two sort keys. *)
Definition key_eqb (k1 k2 : Z * time) : bool :=
  (fst k1 =? fst k2) && time_eqb (snd k1) (snd k2).

(** A stored triple both of whose times [string_to_time] accepts. *)
Definition parses (y : stored_section) : Prop :=
  (exists a, string_to_time (snd (fst y)) = inr a)
  /\ (exists b, string_to_time (snd y) = inr b).

(** ** Scenarios

    Concrete catalogs and states, used to run the definitions. *)

(** The time [h:m], to the minute. *)
Definition hm (h m : Z) : time := mk_time h m 0 0.

(** A day written in capitals and in small letters with two letters that
    are not ASCII: U+00C9 and U+00E9, the capital and the small e with an
    acute accent. *)
Definition day_ETE : string :=
  String (ascii_of_nat 201) (String "T" (String (ascii_of_nat 201) EmptyString)).
Definition day_ete : string :=
  String (ascii_of_nat 233) (String "t" (String (ascii_of_nat 233) EmptyString)).

(** Scenario A of the specification: two courses on Monday. *)
Definition catalog_A : dict (list section) :=
  [ ("Math", [("Mon", hm 8 0, hm 9 0); ("Mon", hm 9 30, hm 10 30)]);
    ("Phys", [("Mon", hm 8 30, hm 9 15)]) ].

(** Scenario C: a course without sections next to one with a section. *)
Definition catalog_C : dict (list section) :=
  [ ("Empty", []); ("Algo", [("Tue", hm 14 0, hm 15 20)]) ].

(** A catalog whose courses come in the reverse of the display order, one of
    them on a day that is no day of the week. *)
Definition catalog_week : dict (list section) :=
  [ ("Lab", [("Someday", hm 7 0, hm 8 0)]);
    ("Art", [("friday", hm 9 0, hm 10 0)]);
    ("Bio", [("MONDAY", hm 13 0, hm 14 0)]);
    ("Chem", [("Monday", hm 8 0, hm 9 0)]) ].

(** A session of student [s1] with [catalog_A] loaded, on a disk in state
    [fs] whose next write meets [err]. *)
Definition session (fs : option file_contents) (err : option write_fault) : app :=
  set_active_courses catalog_A
    (set_active_student_id (Some "s1")
       (set_entry_student_id "s1" (init fs err))).

(** A session on a disk without the data file, every write to which is
    refused: the student is loaded, a course with the default section is
    saved, the student is saved and then loaded again. *)
Definition refused_0 : app :=
  set_entry_student_id "s1" (init None (Some (OpenFails "Permission denied"))).
Definition refused_1 : app := state_of (load_student_data refused_0).
Definition refused_2 : app :=
  save_course (state_of (add_section (set_entry_course_name "Math" refused_1))).
Definition refused_3 : app := save_student_data false refused_2.


(** A session whose data file holds, for student [s1], a start time that
    is no [HH:MM] text. *)
Definition bad_time_table : users_table :=
  [("s1", mk_user [("Math", [("Monday", "9am", "10:00")])])].
Definition bad_time_session : app :=
  set_disk_file (Some (Json bad_time_table)) (session None None).

(** A data file that holds, for student [s1], a section that ends at 01:00
    after starting at 23:00, and a new session on it with the student's id
    typed in. *)
Definition late_table : users_table :=
  [("s1", mk_user [("Night", [("Tue", "23:00", "01:00")])])].
Definition late_session : app :=
  set_entry_student_id "s1" (init (Some (Json late_table)) None).


(** The session of [s1] with [catalog_A], the list of saved courses shown
    and the student saved on a disk that takes the write. *)
Definition saved_A : app :=
  save_student_data false (refresh_saved_courses_listbox (session None None)).

(** * Properties *)

(** ** Times *)

Lemma time_lt_before (a b : time) : time_lt a b = true <-> time_before a b.
Proof.
  unfold time_lt, time_cmp, time_before.
  destruct (Z.compare_spec (hour a) (hour b));
    destruct (Z.compare_spec (minute a) (minute b));
    destruct (Z.compare_spec (second a) (second b));
    destruct (Z.compare_spec (microsecond a) (microsecond b));
    split; intros; try discriminate; try reflexivity; lia.
Qed.

Lemma time_cmp_opp (a b : time) : time_cmp b a = CompOpp (time_cmp a b).
Proof.
  unfold time_cmp.
  rewrite (Z.compare_antisym (hour a) (hour b)),
    (Z.compare_antisym (minute a) (minute b)),
    (Z.compare_antisym (second a) (second b)),
    (Z.compare_antisym (microsecond a) (microsecond b)).
  destruct (hour a ?= hour b), (minute a ?= minute b),
    (second a ?= second b), (microsecond a ?= microsecond b); reflexivity.
Qed.

Lemma time_gt_lt (a b : time) : time_gt a b = time_lt b a.
Proof.
  unfold time_gt, time_lt. rewrite (time_cmp_opp a b).
  destruct (time_cmp a b); reflexivity.
Qed.

Lemma time_le_not_lt (a b : time) : time_le a b = negb (time_lt b a).
Proof.
  unfold time_le, time_lt. rewrite (time_cmp_opp a b).
  destruct (time_cmp a b); reflexivity.
Qed.

Lemma time_cmp_eq (a b : time) : time_cmp a b = Eq <-> a = b.
Proof.
  split.
  - unfold time_cmp. destruct a as [h m s u], b as [h' m' s' u']; simpl.
    destruct (Z.compare_spec h h'); try discriminate.
    destruct (Z.compare_spec m m'); try discriminate.
    destruct (Z.compare_spec s s'); try discriminate.
    destruct (Z.compare_spec u u'); try discriminate.
    intros _. congruence.
  - intros ->. unfold time_cmp. now rewrite !Z.compare_refl.
Qed.

Lemma time_le_not_after (a b : time) : time_le a b = true <-> time_not_after a b.
Proof.
  unfold time_le, time_not_after.
  destruct (time_cmp a b) eqn:E.
  - apply time_cmp_eq in E. tauto.
  - assert (time_before a b) by (apply time_lt_before; unfold time_lt; now rewrite E).
    tauto.
  - split; [discriminate|].
    intros [->|H].
    + assert (time_cmp b b = Eq) by now apply time_cmp_eq. congruence.
    + apply time_lt_before in H. unfold time_lt in H. rewrite E in H. discriminate.
Qed.

Lemma time_before_irrefl (a : time) : ~ time_before a a.
Proof. unfold time_before. lia. Qed.

Lemma time_before_trans (a b c : time) :
  time_before a b -> time_before b c -> time_before a c.
Proof. unfold time_before. lia. Qed.

(** ** The overlap test *)

Lemma times_overlap_true (a b : section) :
  times_overlap a b = true <->
  same_day (sec_day a) (sec_day b)
  /\ time_before (sec_start a) (sec_end b)
  /\ time_before (sec_start b) (sec_end a).
Proof.
  destruct a as [[day1 start1] end1], b as [[day2 start2] end2].
  unfold times_overlap, same_day, sec_day, sec_start, sec_end; simpl.
  rewrite time_gt_lt.
  destruct (String.eqb_spec (lower day1) (lower day2)) as [E|E]; simpl.
  - rewrite andb_true_iff, !time_lt_before. tauto.
  - split; [discriminate | tauto].
Qed.

Lemma times_overlap_comm (a b : section) : times_overlap a b = times_overlap b a.
Proof.
  destruct a as [[day1 start1] end1], b as [[day2 start2] end2].
  unfold times_overlap. rewrite !time_gt_lt.
  rewrite (String.eqb_sym (lower day2) (lower day1)).
  destruct (String.eqb (lower day1) (lower day2)); simpl; [apply andb_comm | reflexivity].
Qed.

Lemma time_before_minutes (a b : time) :
  valid_time a -> minute_resolution a -> valid_time b -> minute_resolution b ->
  (time_before a b <-> minute_of_day a < minute_of_day b).
Proof.
  unfold valid_time, minute_resolution, time_before, minute_of_day. lia.
Qed.

Lemma is_upper_spec (c : ascii) :
  is_upper c = true <->
  ((65 <= nat_of_ascii c <= 90)%nat
   \/ ((192 <= nat_of_ascii c <= 222)%nat /\ nat_of_ascii c <> 215%nat)).
Proof.
  unfold is_upper.
  rewrite orb_true_iff, !andb_true_iff, negb_true_iff, !Nat.leb_le, Nat.eqb_neq.
  tauto.
Qed.

Lemma is_upper_false (c : ascii) :
  is_upper c = false <->
  ~ ((65 <= nat_of_ascii c <= 90)%nat
     \/ ((192 <= nat_of_ascii c <= 222)%nat /\ nat_of_ascii c <> 215%nat)).
Proof. rewrite <- is_upper_spec. symmetry. apply not_true_iff_false. Qed.

Lemma char_lower_nat (c : ascii) :
  nat_of_ascii (char_lower c)
  = if is_upper c then (nat_of_ascii c + 32)%nat else nat_of_ascii c.
Proof.
  unfold char_lower. destruct (is_upper c) eqn:E; [|reflexivity].
  apply is_upper_spec in E. apply nat_ascii_embedding. lia.
Qed.

Lemma nat_of_ascii_inj (c1 c2 : ascii) :
  nat_of_ascii c1 = nat_of_ascii c2 -> c1 = c2.
Proof.
  intros H. rewrite <- (ascii_nat_embedding c1), <- (ascii_nat_embedding c2).
  now rewrite H.
Qed.

Lemma char_lower_same_letter (c1 c2 : ascii) :
  char_lower c1 = char_lower c2 <-> same_letter c1 c2.
Proof.
  unfold same_letter, capital_of. split.
  - intros H. apply (f_equal nat_of_ascii) in H. rewrite !char_lower_nat in H.
    destruct (is_upper c1) eqn:E1, (is_upper c2) eqn:E2.
    + left. apply nat_of_ascii_inj. lia.
    + apply is_upper_spec in E1. right. left. split; [exact E1 | lia].
    + apply is_upper_spec in E2. right. right. split; [exact E2 | lia].
    + left. now apply nat_of_ascii_inj.
  - intros [->|[[H1 H2]|[H1 H2]]]; [reflexivity | |].
    + apply nat_of_ascii_inj. rewrite !char_lower_nat.
      assert (E1 : is_upper c1 = true) by now apply is_upper_spec.
      assert (E2 : is_upper c2 = false) by (apply is_upper_false; lia).
      rewrite E1, E2. lia.
    + apply nat_of_ascii_inj. rewrite !char_lower_nat.
      assert (E2 : is_upper c2 = true) by now apply is_upper_spec.
      assert (E1 : is_upper c1 = false) by (apply is_upper_false; lia).
      rewrite E1, E2. lia.
Qed.

Lemma lower_days_match (d1 d2 : string) :
  lower d1 = lower d2 <-> days_match d1 d2.
Proof.
  revert d2. induction d1 as [|c1 r1 IH]; intros [|c2 r2]; simpl.
  - tauto.
  - split; [discriminate | tauto].
  - split; [discriminate | tauto].
  - rewrite <- IH, <- char_lower_same_letter. split.
    + intros H. injection H as H1 H2. now split.
    + intros [H1 H2]. now rewrite H1, H2.
Qed.

Lemma times_overlap_days_match (a b : section) :
  times_overlap a b = true <->
  days_match (sec_day a) (sec_day b)
  /\ time_before (sec_start a) (sec_end b)
  /\ time_before (sec_start b) (sec_end a).
Proof.
  rewrite times_overlap_true. unfold same_day. now rewrite lower_days_match.
Qed.

(** C2. [times_overlap] answers true exactly for two sections whose day
    strings are equal when letter case is ignored, letter for letter, and
    whose times satisfy [a.start < b.end] and [b.start < a.end]; it answers
    false whenever the days differ in more than letter case, whatever the
    times; two sections that touch do not overlap, whatever their days; of
    two same-day sections to the minute, each ending after it starts, the
    one that starts a minute before the other ends overlaps it; the two
    boundary cases of the specification come out as stated, Monday and
    Tuesday at the same hours do not overlap, and days that differ only in
    the case of a letter with an accent do. *)
Theorem times_overlap_half_open :
  (forall a b : section,
      times_overlap a b = true <->
      days_match (sec_day a) (sec_day b)
      /\ time_before (sec_start a) (sec_end b)
      /\ time_before (sec_start b) (sec_end a))
  /\ (forall a b : section,
         ~ days_match (sec_day a) (sec_day b) -> times_overlap a b = false)
  /\ (forall a b : section,
         times_overlap a b = false <->
         ~ days_match (sec_day a) (sec_day b)
         \/ ~ (time_before (sec_start a) (sec_end b)
               /\ time_before (sec_start b) (sec_end a)))
  /\ (forall (d1 d2 : string) (s m e : time),
         times_overlap (d1, s, m) (d2, m, e) = false
         /\ times_overlap (d2, m, e) (d1, s, m) = false)
  /\ (forall a b : section,
         days_match (sec_day a) (sec_day b) ->
         section_ok a -> section_ok b -> to_the_minute a -> to_the_minute b ->
         minute_of_day (sec_start b) + 1 = minute_of_day (sec_end a) ->
         times_overlap a b = true /\ times_overlap b a = true)
  /\ times_overlap ("Mon", mk_time 9 0 0 0, mk_time 10 0 0 0)
                   ("Mon", mk_time 10 0 0 0, mk_time 11 0 0 0) = false
  /\ times_overlap ("Mon", mk_time 9 0 0 0, mk_time 10 0 0 0)
                   ("Mon", mk_time 9 59 0 0, mk_time 10 30 0 0) = true
  /\ times_overlap ("Monday", mk_time 9 0 0 0, mk_time 10 0 0 0)
                   ("MONDAY", mk_time 9 59 0 0, mk_time 10 30 0 0) = true
  /\ times_overlap ("Monday", mk_time 9 0 0 0, mk_time 10 0 0 0)
                   ("Tuesday", mk_time 9 0 0 0, mk_time 10 0 0 0) = false
  /\ times_overlap ("Mon", mk_time 9 0 0 0, mk_time 10 0 0 0)
                   ("Monday", mk_time 9 0 0 0, mk_time 10 0 0 0) = false
  /\ times_overlap (day_ETE, mk_time 9 0 0 0, mk_time 10 0 0 0)
                   (day_ete, mk_time 9 59 0 0, mk_time 10 30 0 0) = true.
Proof.
  split; [exact times_overlap_days_match|].
  split.
  { intros a b H. apply not_true_iff_false. intros K.
    apply times_overlap_days_match in K. tauto. }
  split.
  { intros a b. rewrite <- not_true_iff_false, times_overlap_days_match.
    split.
    - intros H.
      destruct (string_dec (lower (sec_day a)) (lower (sec_day b))) as [E|E].
      + right. intros K. apply H. split; [now apply lower_days_match | exact K].
      + left. intros K. apply E. now apply lower_days_match.
    - intros [H|H] (K1 & K2 & K3); [now apply H | apply H; now split]. }
  split.
  { intros d1 d2 s m e. split; apply not_true_iff_false; intros H;
      apply times_overlap_true in H; unfold sec_start, sec_end in H; simpl in H;
      destruct H as (_ & H1 & H2);
      [eapply time_before_irrefl; exact H2 | eapply time_before_irrefl; exact H1]. }
  split.
  { intros a b Hd Ha Hb (Va1 & Ma1 & Va2 & Ma2) (Vb1 & Mb1 & Vb2 & Mb2) Hm.
    unfold section_ok in Ha, Hb.
    apply time_before_minutes in Ha; try assumption.
    apply time_before_minutes in Hb; try assumption.
    assert (K1 : time_before (sec_start a) (sec_end b))
      by (apply time_before_minutes; try assumption; lia).
    assert (K2 : time_before (sec_start b) (sec_end a))
      by (apply time_before_minutes; try assumption; lia).
    assert (Hd' : days_match (sec_day b) (sec_day a))
      by (apply lower_days_match; symmetry; now apply lower_days_match).
    split; apply times_overlap_days_match; auto. }
  repeat split; reflexivity.
Qed.

Lemma times_overlap_half_open_witness :
  times_overlap ("Mon", hm 9 0, hm 10 0) ("mon", hm 9 59, hm 10 30) = true
  /\ times_overlap ("Mon", hm 9 0, hm 10 0) ("Tue", hm 9 0, hm 10 0) = false.
Proof.
  split.
  - refine (proj1 (proj1 (proj2 (proj2 (proj2 (proj2 times_overlap_half_open))))
                         ("Mon", hm 9 0, hm 10 0) ("mon", hm 9 59, hm 10 30)
                         _ _ _ _ _ _)).
    + apply lower_days_match. reflexivity.
    + unfold section_ok, time_before; simpl. lia.
    + unfold section_ok, time_before; simpl. lia.
    + unfold to_the_minute, valid_time, minute_resolution; simpl. lia.
    + unfold to_the_minute, valid_time, minute_resolution; simpl. lia.
    + reflexivity.
  - refine (proj1 (proj2 times_overlap_half_open)
                  ("Mon", hm 9 0, hm 10 0) ("Tue", hm 9 0, hm 10 0) _).
    intros H. apply lower_days_match in H. discriminate H.
Defined.

(** C3. The overlap test is symmetric in its two sections. *)
Theorem times_overlap_symmetric :
  forall a b : section, times_overlap a b = times_overlap b a.
Proof. exact times_overlap_comm. Qed.

(** ** The validator *)

Lemma in_range (a b i : nat) : In i (range a b) <-> (a <= i < b)%nat.
Proof. unfold range. rewrite in_seq. lia. Qed.

Lemma is_valid_schedule_ordered (schedule : list section) :
  is_valid_schedule schedule = true <->
  (forall i j a b, (i < j)%nat ->
     nth_error schedule i = Some a -> nth_error schedule j = Some b ->
     times_overlap a b = false).
Proof.
  unfold is_valid_schedule. rewrite negb_true_iff. split.
  - intros H i j a b Hij Ha Hb.
    destruct (times_overlap a b) eqn:E; [|reflexivity].
    assert (Hj : (j < List.length schedule)%nat)
      by (apply nth_error_Some; congruence).
    rewrite <- not_true_iff_false in H. exfalso. apply H.
    apply existsb_exists. exists i. split; [apply in_range; lia|].
    apply existsb_exists. exists j. split; [apply in_range; lia|].
    unfold overlap_at. now rewrite Ha, Hb.
  - intros H. apply not_true_iff_false. intros Hex.
    apply existsb_exists in Hex as (i & Hi & Hex).
    apply existsb_exists in Hex as (j & Hj & Ho).
    apply in_range in Hj. unfold overlap_at in Ho.
    destruct (nth_error schedule i) as [a|] eqn:Ha; [|discriminate].
    destruct (nth_error schedule j) as [b|] eqn:Hb; [|discriminate].
    rewrite (H i j a b) in Ho; [discriminate | lia | assumption | assumption].
Qed.

(** C1. [is_valid_schedule] returns true exactly when no two sections at
    distinct positions of the schedule overlap; the pairs it looks at, those
    with [i < j], stand for all of them. *)
Theorem is_valid_schedule_iff_no_overlap :
  forall schedule : list section,
    (is_valid_schedule schedule = true <->
     (forall i j a b, i <> j ->
        nth_error schedule i = Some a -> nth_error schedule j = Some b ->
        times_overlap a b = false))
    /\ (is_valid_schedule schedule = true <->
        (forall i j a b, (i < j)%nat ->
           nth_error schedule i = Some a -> nth_error schedule j = Some b ->
           times_overlap a b = false)).
Proof.
  intros schedule. split; [|apply is_valid_schedule_ordered].
  rewrite is_valid_schedule_ordered. split.
  - intros H i j a b Hij Ha Hb.
    destruct (Nat.lt_ge_cases i j) as [L|L].
    + now apply (H i j).
    + rewrite times_overlap_comm. apply (H j i); [lia | assumption | assumption].
  - intros H i j a b Hij. apply H. lia.
Qed.

(** ** The enumerator *)

Lemma append_empty_r (s : string) : (s ++ EmptyString)%string = s.
Proof. induction s as [|c s IH]; simpl; [reflexivity | now rewrite IH]. Qed.

Lemma append_assoc (a b c : string) : ((a ++ b) ++ c = a ++ (b ++ c))%string.
Proof. induction a as [|x a IH]; simpl; [reflexivity | now rewrite IH]. Qed.

Lemma product_nil_factor {A : Type} (lists : list (list A)) :
  In [] lists -> product lists = [].
Proof.
  induction lists as [|l ls IH]; simpl; [tauto|].
  intros [->|H]; [reflexivity|].
  rewrite (IH H). induction l; simpl; auto.
Qed.

Lemma product_length {A : Type} (lists : list (list A)) :
  List.length (product lists)
  = fold_right Nat.mul 1%nat (map (@List.length A) lists).
Proof.
  induction lists as [|l ls IH]; simpl; [reflexivity|].
  rewrite <- IH. induction l as [|x l IHl]; simpl; [reflexivity|].
  now rewrite length_app, length_map, IHl.
Qed.

Lemma product_In {A : Type} (lists : list (list A)) (combo : list A) :
  In combo (product lists) <-> Forall2 (@In A) combo lists.
Proof.
  revert combo. induction lists as [|l ls IH]; intros combo; simpl.
  - split.
    + intros [<-|[]]. constructor.
    + intros H. inversion H. now left.
  - rewrite in_flat_map. split.
    + intros (x & Hx & Hc). apply in_map_iff in Hc as (c & <- & Hc).
      constructor; [assumption | now apply IH].
    + intros H. inversion H as [|x c ? ? Hx Hc]; subst.
      exists x. split; [assumption|]. apply in_map. now apply IH.
Qed.

Lemma dict_get_key {V : Type} (d : dict V) (k : string) :
  In k (dict_keys d) -> exists v, dict_get k d = Some v.
Proof.
  induction d as [|[k' v'] r IH]; simpl; [tauto|].
  intros H. destruct (String.eqb_spec k k') as [E|E]; [eauto|].
  destruct H as [H|H]; [congruence | auto].
Qed.

Lemma sections_of_some (active : dict (list section)) (names : list string) :
  (forall n, In n names -> In n (dict_keys active)) ->
  exists lists, sections_of active names = Some lists.
Proof.
  induction names as [|n r IH]; simpl; intros H; [eauto|].
  destruct (dict_get_key active n) as [l Hl]; [apply H; now left|].
  destruct IH as [ls Hls]; [intros; apply H; now right|].
  rewrite Hl, Hls. eauto.
Qed.

Lemma all_combinations_some (active : dict (list section)) :
  exists lists,
    sections_of active (dict_keys active) = Some lists
    /\ all_combinations active = Some (product lists).
Proof.
  destruct (sections_of_some active (dict_keys active)) as [lists H]; [auto|].
  exists lists. unfold all_combinations. now rewrite H.
Qed.

Lemma sections_of_In (active : dict (list section)) (names : list string)
    (lists : list (list section)) (c : string) (l : list section) :
  sections_of active names = Some lists ->
  In c names -> dict_get c active = Some l -> In l lists.
Proof.
  revert lists. induction names as [|n r IH]; simpl; intros lists H Hc Hl; [tauto|].
  destruct (dict_get n active) as [l'|] eqn:E; [|discriminate].
  destruct (sections_of active r) as [ls|]; [|discriminate].
  injection H as <-. destruct Hc as [->|Hc].
  - left. congruence.
  - right. now apply IH.
Qed.

Lemma dict_get_in_keys {V : Type} (d : dict V) (k : string) (v : V) :
  dict_get k d = Some v -> In k (dict_keys d).
Proof.
  induction d as [|[k' v'] r IH]; simpl; [discriminate|].
  destruct (String.eqb_spec k k') as [E|E]; [now left | right; auto].
Qed.

(** C4. A catalog with a course whose section list is empty yields no
    candidate schedule at all, hence no valid one, and [generate_schedules]
    reports zero schedules; the candidates of a catalog are the cartesian
    product of its section lists, one choice per list and as many
    candidates as the product of the lengths. *)
Theorem empty_course_no_schedules :
  forall (st : app) (c : string),
    dict_get c (active_courses st) = Some [] ->
    all_combinations (active_courses st) = Some []
    /\ valid_schedules (active_courses st) = []
    /\ displayed_schedules (active_courses st) = []
    /\ (sid_truthy (active_student_id st) = true ->
        output_box (generate_schedules st)
        = ("Found 0 valid schedules for student "
             ++ sid_text (active_student_id st) ++ "." ++ nl ++ nl)%string)
    /\ (forall lists : list (list section),
           List.length (product lists)
           = fold_right Nat.mul 1%nat (map (@List.length section) lists)
           /\ forall combo, In combo (product lists) <-> Forall2 (@In section) combo lists).
Proof.
  intros st c Hc.
  destruct (all_combinations_some (active_courses st)) as (lists & Hs & Ha).
  assert (Hnil : product lists = []).
  { apply product_nil_factor.
    apply (sections_of_In _ _ _ c [] Hs); [|assumption].
    eapply dict_get_in_keys; eassumption. }
  rewrite Hnil in Ha.
  assert (Hv : valid_schedules (active_courses st) = [])
    by (unfold valid_schedules; now rewrite Ha).
  assert (Hd : displayed_schedules (active_courses st) = [])
    by (unfold displayed_schedules; now rewrite Hv).
  repeat split.
  - assumption.
  - assumption.
  - assumption.
  - intros Hsid. unfold generate_schedules. rewrite Hsid; simpl.
    destruct (active_courses st) as [|item r] eqn:E; [discriminate|].
    rewrite Ha, Hv, Hd. cbn [render_schedules List.length].
    destruct st; cbn [output_box set_output_box].
    now rewrite append_empty_r.
  - apply product_length.
  - apply product_In.
  - apply product_In.
Qed.

Lemma empty_course_no_schedules_witness :
  dict_get "Empty" (active_courses (set_active_courses catalog_C (session None None)))
  = Some []
  /\ valid_schedules catalog_C = [].
Proof.
  split; [reflexivity|].
  apply (empty_course_no_schedules
           (set_active_courses catalog_C (session None None)) "Empty").
  reflexivity.
Defined.

(** ** The display order *)

Lemma time_not_after_trans (a b c : time) :
  time_not_after a b -> time_not_after b c -> time_not_after a c.
Proof.
  unfold time_not_after. intros [->|H1] [->|H2]; auto.
  right. eapply time_before_trans; eassumption.
Qed.

Lemma key_le_trans (x y z : info) : key_le x y -> key_le y z -> key_le x z.
Proof.
  unfold key_le. intros [H1|[H1 T1]] [H2|[H2 T2]]; try (left; lia).
  right. split; [lia|]. eapply time_not_after_trans; eassumption.
Qed.

Lemma key_lt_le (x y : info) :
  key_lt (sort_key x) (sort_key y) = true -> key_le x y.
Proof.
  unfold key_lt, key_le, sort_key; simpl.
  destruct (Z.eqb_spec (get_day_index (info_day x)) (get_day_index (info_day y))).
  - intros H. right. split; [assumption|]. right. now apply time_lt_before.
  - intros H. left. now apply Z.ltb_lt.
Qed.

Lemma key_not_lt_le (x y : info) :
  key_lt (sort_key y) (sort_key x) = false -> key_le x y.
Proof.
  unfold key_lt, key_le, sort_key; simpl.
  destruct (Z.eqb_spec (get_day_index (info_day y)) (get_day_index (info_day x))).
  - intros H. right. split; [congruence|].
    apply time_le_not_after. rewrite time_le_not_lt. now rewrite H.
  - intros H. left. apply Z.ltb_ge in H. lia.
Qed.

Lemma insert_by_key_perm (x : info) (l : list info) :
  Permutation (x :: l) (insert_by_key x l).
Proof.
  induction l as [|y r IH]; simpl; [reflexivity|].
  destruct (key_lt (sort_key y) (sort_key x)); [|reflexivity].
  rewrite perm_swap. now constructor.
Qed.

Lemma insert_by_key_sorted (x : info) (l : list info) :
  StronglySorted key_le l -> StronglySorted key_le (insert_by_key x l).
Proof.
  induction l as [|y r IH]; simpl; intros H.
  - repeat constructor.
  - inversion H as [|? ? Hr Hy]; subst.
    destruct (key_lt (sort_key y) (sort_key x)) eqn:E.
    + constructor; [now apply IH|].
      apply (Permutation_Forall (insert_by_key_perm x r)).
      constructor; [now apply key_lt_le | assumption].
    + apply key_not_lt_le in E.
      constructor; [assumption|]. constructor; [assumption|].
      eapply Forall_impl; [|exact Hy]. intros z Hz. now apply (key_le_trans x y z).
Qed.

Lemma sort_by_key_sorted (l : list info) : StronglySorted key_le (sort_by_key l).
Proof.
  induction l as [|x l IH]; simpl; [constructor | now apply insert_by_key_sorted].
Qed.

Lemma sort_by_key_perm (l : list info) : Permutation l (sort_by_key l).
Proof.
  induction l as [|x l IH]; simpl; [constructor|].
  rewrite <- insert_by_key_perm. now constructor.
Qed.

Lemma get_day_index_cases (d : string) :
  (lower d = "monday" /\ get_day_index d = 0)
  \/ (lower d = "tuesday" /\ get_day_index d = 1)
  \/ (lower d = "wednesday" /\ get_day_index d = 2)
  \/ (lower d = "thursday" /\ get_day_index d = 3)
  \/ (lower d = "friday" /\ get_day_index d = 4)
  \/ (lower d = "saturday" /\ get_day_index d = 5)
  \/ (lower d = "sunday" /\ get_day_index d = 6)
  \/ ((forall name i, In (name, i) day_order -> lower d <> name)
      /\ get_day_index d = 999).
Proof.
  unfold get_day_index, day_order; simpl.
  destruct (String.eqb_spec (lower d) "monday"); [tauto|].
  destruct (String.eqb_spec (lower d) "tuesday"); [tauto|].
  destruct (String.eqb_spec (lower d) "wednesday"); [tauto|].
  destruct (String.eqb_spec (lower d) "thursday"); [tauto|].
  destruct (String.eqb_spec (lower d) "friday"); [tauto|].
  destruct (String.eqb_spec (lower d) "saturday"); [tauto|].
  destruct (String.eqb_spec (lower d) "sunday"); [tauto|].
  do 7 right. split; [|reflexivity].
  intros name i H.
  repeat (destruct H as [H|H]; [injection H as <- <-; assumption|]).
  destruct H.
Qed.

(** C5. Every schedule [generate_schedules] writes out is the list of
    [(day, start, end, course)] entries of a valid schedule, rearranged so
    that the keys [(get_day_index(day), start)] never decrease; the text of
    the output box is the rendering of these lists; [get_day_index] sends
    the seven day names, in any letter case, to 0..6 and every other string
    to 999, which is above all of them. *)
Theorem displayed_schedules_sorted :
  (forall (active : dict (list section)) (sched : list info),
      In sched (displayed_schedules active) ->
      StronglySorted key_le sched
      /\ exists schedule,
           In schedule (valid_schedules active)
           /\ is_valid_schedule schedule = true
           /\ Permutation (schedule_info (dict_keys active) schedule) sched)
  /\ (forall st : app,
         sid_truthy (active_student_id st) = true ->
         active_courses st <> [] ->
         output_box (generate_schedules st)
         = (("Found " ++ str_of_nat (List.length (valid_schedules (active_courses st)))
               ++ " valid schedules for student "
               ++ sid_text (active_student_id st) ++ "." ++ nl ++ nl)
              ++ render_schedules 1 (displayed_schedules (active_courses st)))%string)
  /\ (forall d : string,
         (lower d = "monday" /\ get_day_index d = 0)
         \/ (lower d = "tuesday" /\ get_day_index d = 1)
         \/ (lower d = "wednesday" /\ get_day_index d = 2)
         \/ (lower d = "thursday" /\ get_day_index d = 3)
         \/ (lower d = "friday" /\ get_day_index d = 4)
         \/ (lower d = "saturday" /\ get_day_index d = 5)
         \/ (lower d = "sunday" /\ get_day_index d = 6)
         \/ ((forall name i, In (name, i) day_order -> lower d <> name)
             /\ get_day_index d = 999))
  /\ get_day_index "MONDAY" = 0 /\ get_day_index "Sunday" = 6
  /\ get_day_index "Someday" = 999
  /\ displayed_schedules catalog_week
     = [[ ("Monday", hm 8 0, hm 9 0, "Chem"); ("MONDAY", hm 13 0, hm 14 0, "Bio");
          ("friday", hm 9 0, hm 10 0, "Art"); ("Someday", hm 7 0, hm 8 0, "Lab") ]].
Proof.
  split.
  { intros active sched H. unfold displayed_schedules in H.
    apply in_map_iff in H as (schedule & <- & H).
    split; [apply sort_by_key_sorted|].
    exists schedule. split; [assumption|]. split; [|apply sort_by_key_perm].
    unfold valid_schedules in H.
    destruct (all_combinations active); [|destruct H].
    now apply filter_In in H. }
  split.
  { intros st Hsid Hne. unfold generate_schedules. rewrite Hsid; simpl.
    destruct (all_combinations_some (active_courses st)) as (lists & _ & Ha).
    destruct (active_courses st) as [|item r] eqn:E; [congruence|].
    rewrite Ha. destruct st; reflexivity. }
  split; [exact get_day_index_cases|].
  repeat split; reflexivity.
Qed.

Lemma displayed_schedules_sorted_witness :
  In [ ("Mon", hm 8 30, hm 9 15, "Phys"); ("Mon", hm 9 30, hm 10 30, "Math") ]
     (displayed_schedules catalog_A)
  /\ StronglySorted key_le
       [ ("Mon", hm 8 30, hm 9 15, "Phys"); ("Mon", hm 9 30, hm 10 30, "Math") ].
Proof.
  assert (H : In [ ("Mon", hm 8 30, hm 9 15, "Phys"); ("Mon", hm 9 30, hm 10 30, "Math") ]
                 (displayed_schedules catalog_A)) by (left; reflexivity).
  split; [exact H|].
  exact (proj1 (proj1 displayed_schedules_sorted catalog_A _ H)).
Defined.

(** ** Formatting and parsing times *)

Lemma time_eqb_eq (a b : time) : time_eqb a b = true -> a = b.
Proof.
  unfold time_eqb. destruct a, b; simpl.
  rewrite !andb_true_iff, !Z.eqb_eq. intros [[[-> ->] ->] ->]. reflexivity.
Qed.

Lemma roundtrip_all_minutes :
  forallb (fun h => forallb (roundtrip_at h) (seq 0 60)) (seq 0 24) = true.
Proof. vm_compute. reflexivity. Qed.

Lemma string_to_time_to_string (t : time) :
  valid_time t -> minute_resolution t ->
  string_to_time (time_to_string t) = inr t.
Proof.
  destruct t as [h m s u]. unfold valid_time, minute_resolution; simpl.
  intros (Hh & Hm & _) [-> ->].
  pose proof roundtrip_all_minutes as H.
  rewrite forallb_forall in H.
  specialize (H (Z.to_nat h)). rewrite forallb_forall in H.
  specialize (H ltac:(apply in_seq; lia) (Z.to_nat m) ltac:(apply in_seq; lia)).
  unfold roundtrip_at in H. rewrite !Z2Nat.id in H by lia.
  destruct (string_to_time (time_to_string (mk_time h m 0 0))) as [e|t'];
    [discriminate|].
  apply time_eqb_eq in H. now subst.
Qed.

(** ** Dictionaries *)

Lemma dict_get_set_same {V : Type} (k : string) (v : V) (d : dict V) :
  dict_get k (dict_set k v d) = Some v.
Proof.
  induction d as [|[k' v'] r IH]; simpl.
  - now rewrite String.eqb_refl.
  - destruct (String.eqb_spec k k') as [E|E]; simpl.
    + now rewrite String.eqb_refl.
    + destruct (String.eqb_spec k k'); [contradiction | assumption].
Qed.

Lemma dict_get_set_other {V : Type} (k k' : string) (v : V) (d : dict V) :
  k' <> k -> dict_get k' (dict_set k v d) = dict_get k' d.
Proof.
  intros Hne. induction d as [|[k0 v0] r IH]; simpl.
  - destruct (String.eqb_spec k' k); [contradiction | reflexivity].
  - destruct (String.eqb_spec k k0) as [E|E]; simpl.
    + subst k0. destruct (String.eqb_spec k' k); [contradiction | reflexivity].
    + destruct (String.eqb_spec k' k0); [reflexivity | assumption].
Qed.

Lemma dict_set_fresh {V : Type} (k : string) (v : V) (d : dict V) :
  ~ In k (dict_keys d) -> dict_set k v d = d ++ [(k, v)].
Proof.
  induction d as [|[k' v'] r IH]; simpl; intros H; [reflexivity|].
  destruct (String.eqb_spec k k') as [E|E]; [exfalso; apply H; left; congruence|].
  rewrite IH; [reflexivity | tauto].
Qed.

Lemma dict_keys_app {V : Type} (d1 d2 : dict V) :
  dict_keys (d1 ++ d2) = dict_keys d1 ++ dict_keys d2.
Proof. apply map_app. Qed.

(** ** Saving and loading again *)

Lemma parse_string_sections (l : list section) :
  (forall x, In x l ->
     valid_time (sec_start x) /\ minute_resolution (sec_start x)
     /\ valid_time (sec_end x) /\ minute_resolution (sec_end x)) ->
  parse_sections (map string_section l) = inr l.
Proof.
  induction l as [|[[day st] et] r IH]; intros H; [reflexivity|].
  destruct (H (day, st, et)) as (V1 & M1 & V2 & M2); [now left|].
  change (sec_start (day, st, et)) with st in V1, M1.
  change (sec_end (day, st, et)) with et in V2, M2.
  cbn [map string_section parse_sections].
  rewrite (string_to_time_to_string st V1 M1), (string_to_time_to_string et V2 M2).
  rewrite IH; [reflexivity | intros; apply H; now right].
Qed.

Lemma final_dict_from (items : dict (list section)) (acc : dict (list stored_section)) :
  NoDup (dict_keys acc ++ dict_keys items) ->
  fold_left (fun acc item => dict_set (fst item) (map string_section (snd item)) acc)
            items acc
  = acc ++ map string_course items.
Proof.
  revert acc. induction items as [|[k l] r IH]; intros acc H; simpl.
  - now rewrite app_nil_r.
  - simpl in H. pose proof (NoDup_remove_2 _ _ _ H) as Hk.
    rewrite dict_set_fresh by (intros K; apply Hk; apply in_or_app; now left).
    rewrite IH.
    + now rewrite <- app_assoc.
    + rewrite dict_keys_app, <- app_assoc. exact H.
Qed.

Lemma final_dict_map (active : dict (list section)) :
  dict_wf active -> final_dict active = map string_course active.
Proof. intros H. unfold final_dict. now rewrite final_dict_from. Qed.

Lemma load_courses_from (items acc : dict (list section)) :
  NoDup (dict_keys acc ++ dict_keys items) ->
  catalog_minute_resolution items ->
  load_courses (map string_course items) acc = inr (acc ++ items).
Proof.
  revert acc. induction items as [|[k l] r IH]; intros acc H Hm; simpl.
  - now rewrite app_nil_r.
  - rewrite parse_string_sections
      by (intros x Hx; apply (Hm k l x); [now left | assumption]).
    simpl in H. pose proof (NoDup_remove_2 _ _ _ H) as Hk.
    rewrite dict_set_fresh by (intros K; apply Hk; apply in_or_app; now left).
    rewrite IH.
    + now rewrite <- app_assoc.
    + rewrite dict_keys_app, <- app_assoc. exact H.
    + intros c s x Hc. apply (Hm c s x). now right.
Qed.

Lemma load_saved_courses (active : dict (list section)) :
  dict_wf active -> catalog_minute_resolution active ->
  load_courses (final_dict active) [] = inr active.
Proof.
  intros Hw Hm. rewrite final_dict_map by assumption.
  now rewrite load_courses_from.
Qed.

Lemma save_student_data_written (st : app) (auto : bool) (sid : string) :
  active_student_id st = Some sid -> str_truthy sid = true ->
  write_error st = None ->
  users_data (save_student_data auto st)
  = dict_set sid (mk_user (final_dict (active_courses st)))
             (users_data (ensure_student sid st))
  /\ disk_file (save_student_data auto st)
     = Some (Json (users_data (save_student_data auto st)))
  /\ active_courses (save_student_data auto st) = active_courses st
  /\ active_student_id (save_student_data auto st) = Some sid
  /\ entry_student_id (save_student_data auto st) = entry_student_id st.
Proof.
  intros Ha Ht Hw. unfold save_student_data, sid_truthy, sid_text.
  rewrite Ha, Ht. cbn [negb].
  assert (E : write_error
                (set_users_data
                   (dict_set sid (mk_user (final_dict (active_courses (ensure_student sid st))))
                             (users_data (ensure_student sid st)))
                   (ensure_student sid st)) = None).
  { unfold ensure_student. destruct (negb (dict_in sid (users_data st)));
      destruct st; exact Hw. }
  rewrite E.
  assert (Ec : active_courses (ensure_student sid st) = active_courses st).
  { unfold ensure_student. destruct (negb (dict_in sid (users_data st)));
      destruct st; reflexivity. }
  assert (Es : active_student_id (ensure_student sid st) = Some sid).
  { unfold ensure_student. destruct (negb (dict_in sid (users_data st)));
      destruct st; exact Ha. }
  assert (Ee : entry_student_id (ensure_student sid st) = entry_student_id st).
  { unfold ensure_student. destruct (negb (dict_in sid (users_data st)));
      destruct st; reflexivity. }
  rewrite Ec. destruct (ensure_student sid st); cbn in Ec, Es, Ee.
  destruct auto; cbn; subst; auto.
Qed.

Lemma load_student_data_parsed (st : app) (sid : string) (d : users_table)
    (u : user_record) (acc : dict (list section)) :
  strip (entry_student_id st) = sid -> str_truthy sid = true ->
  disk_file st = Some (Json d) ->
  dict_get sid d = Some u ->
  load_courses (courses u) [] = inr acc ->
  exists st',
    load_student_data st = Done st'
    /\ active_student_id st' = Some sid
    /\ active_courses st' = acc
    /\ users_data st' = d
    /\ disk_file st' = disk_file st
    /\ saved_courses_listbox st' = dict_keys acc.
Proof.
  intros He Ht Hf Hg Hl. unfold load_student_data.
  rewrite He, Ht. cbn [negb].
  unfold read_data_file. rewrite Hf.
  unfold ensure_student, dict_in.
  destruct st; cbn in Hf |- *. rewrite Hg. cbn. rewrite Hg, Hl.
  eexists. split; [reflexivity|]. cbn. auto.
Qed.

(** ** The course editor *)

Lemma output_message_same (msg : string) (st : app) :
  same_but_output (output_message msg st) st.
Proof. destruct st; reflexivity. Qed.

Lemma add_section_cases (st : app) :
  ((exists msg, add_section st = Done (output_message msg st))
   /\ forall s e,
        time_new (start_hour_var st) (start_min_var st) = inr s ->
        time_new (end_hour_var st) (end_min_var st) = inr e ->
        ~ time_before s e)
  \/ ((exists x, add_section st = Raised x st)
      /\ forall s e,
           time_new (start_hour_var st) (start_min_var st) = inr s ->
           time_new (end_hour_var st) (end_min_var st) = inr e ->
           ~ time_before s e)
  \/ (exists s e,
         time_new (start_hour_var st) (start_min_var st) = inr s
         /\ time_new (end_hour_var st) (end_min_var st) = inr e
         /\ time_before s e
         /\ add_section st
            = Done (set_current_sections_listbox
                      (current_sections_listbox st
                         ++ [section_line (capitalize (day_var st), s, e)])
                      (set_current_course_sections
                         (current_course_sections st
                            ++ [(capitalize (day_var st), s, e)])
                         st))).
Proof.
  unfold add_section.
  destruct (time_new (start_hour_var st) (start_min_var st)) as [x|s].
  { destruct x; [left | right; left ..]; (split; [eauto | discriminate]). }
  destruct (time_new (end_hour_var st) (end_min_var st)) as [x|e].
  { destruct x; [left | right; left ..]; (split; [eauto | discriminate]). }
  rewrite time_le_not_lt. destruct (time_lt s e) eqn:E; cbn [negb].
  - right. right. exists s, e. apply time_lt_before in E.
    repeat split; assumption.
  - left. split; [eauto|].
    intros s' e' Hs He K. injection Hs as <-. injection He as <-.
    apply time_lt_before in K. congruence.
Qed.


Lemma remove_nth_In {A : Type} (i : nat) (l : list A) (x : A) :
  In x (remove_nth i l) -> In x l.
Proof.
  revert i. induction l as [|y r IH]; intros [|i]; simpl; auto.
  intros [H|H]; eauto.
Qed.

Lemma dict_set_In {V : Type} (k : string) (v : V) (d : dict V) (k' : string) (v' : V) :
  In (k', v') (dict_set k v d) -> (k', v') = (k, v) \/ In (k', v') d.
Proof.
  induction d as [|[k0 v0] r IH]; simpl.
  - intros [H|[]]. now left.
  - destruct (String.eqb k k0); simpl; intros [H|H]; auto.
    destruct (IH H); auto.
Qed.

Lemma dict_del_In {V : Type} (k : string) (d d' : dict V) (k' : string) (v' : V) :
  dict_del k d = Some d' -> In (k', v') d' -> In (k', v') d.
Proof.
  revert d'. induction d as [|[k0 v0] r IH]; simpl; intros d' H; [discriminate|].
  destruct (String.eqb k k0).
  - injection H as <-. now right.
  - destruct (dict_del k r) as [r'|]; [|discriminate].
    injection H as <-. intros [K|K]; [now left | right; eauto].
Qed.

Lemma dict_get_In {V : Type} (k : string) (d : dict V) (v : V) :
  dict_get k d = Some v -> In (k, v) d.
Proof.
  induction d as [|[k0 v0] r IH]; simpl; [discriminate|].
  destruct (String.eqb_spec k k0) as [->|E].
  - intros H. injection H as ->. now left.
  - right. auto.
Qed.





(** ** Write failures *)

Lemma ensure_student_frame (sid : string) (st : app) :
  active_courses (ensure_student sid st) = active_courses st
  /\ active_student_id (ensure_student sid st) = active_student_id st
  /\ write_error (ensure_student sid st) = write_error st
  /\ disk_file (ensure_student sid st) = disk_file st
  /\ output_box (ensure_student sid st) = output_box st.
Proof.
  unfold ensure_student. destruct (negb (dict_in sid (users_data st)));
    destruct st; repeat split.
Qed.

Lemma save_student_data_effect (st : app) (auto : bool) (sid : string) :
  active_student_id st = Some sid -> str_truthy sid = true ->
  users_data (save_student_data auto st)
  = dict_set sid (mk_user (final_dict (active_courses st)))
             (users_data (ensure_student sid st))
  /\ active_courses (save_student_data auto st) = active_courses st
  /\ (write_error st = None ->
      disk_file (save_student_data auto st)
      = Some (Json (users_data (save_student_data auto st))))
  /\ (forall f, write_error st = Some f ->
        disk_file (save_student_data auto st) = file_after_fault f (disk_file st)
        /\ output_box (save_student_data auto st)
           = if auto then output_box st
             else (output_box st
                     ++ ("Error saving data: " ++ fault_reason f) ++ nl)%string).
Proof.
  intros Ha Ht. unfold save_student_data, sid_truthy, sid_text.
  rewrite Ha, Ht. cbn [negb].
  destruct (ensure_student_frame sid st) as (Ec & Es & Ew & Ef & Eo).
  rewrite Ec.
  destruct (ensure_student sid st); cbn in Ec, Es, Ew, Ef, Eo |- *.
  subst. destruct (write_error st) as [e|]; destruct auto; cbn;
    repeat split; try discriminate;
    match goal with H : Some _ = Some _ |- _ => injection H as <- end;
    reflexivity.
Qed.


(** ** Loading without a file *)

Lemma load_student_data_unparsable (st : app) :
  str_truthy (strip (entry_student_id st)) = true ->
  disk_file st = Some Unparsable ->
  exists st',
    load_student_data st = Done st'
    /\ users_data st' = [(strip (entry_student_id st), mk_user [])]
    /\ active_courses st' = [].
Proof.
  intros Ht Hf. unfold load_student_data. rewrite Ht. cbn [negb].
  unfold read_data_file. rewrite Hf.
  unfold ensure_student, dict_in.
  destruct st; cbn. rewrite String.eqb_refl. cbn.
  eexists. split; [reflexivity|]. split; reflexivity.
Qed.

(** C7, the code at the failing input.  With no data file on the disk,
    [load_student_data] returns without raising but resets nothing: the
    table of students in memory is kept, and the student loaded gets the
    catalog that table holds, here the course saved before the write was
    refused.  An unparsable file, by contrast, does reset the table and
    gives the student an empty catalog. *)
Theorem load_missing_file_keeps_table :
  disk_file refused_3 = None
  /\ users_data refused_3
     = [("s1", mk_user [("Math", [("Monday", "08:30", "10:20")])])]
  /\ (exists st',
         load_student_data refused_3 = Done st'
         /\ users_data st' = users_data refused_3
         /\ active_courses st' = [("Math", [("Monday", hm 8 30, hm 10 20)])])
  /\ (forall st : app,
         disk_file st = None -> users_data (read_data_file st) = users_data st)
  /\ (exists st',
         load_student_data (set_disk_file (Some Unparsable) refused_3) = Done st'
         /\ users_data st' = [("s1", mk_user [])]
         /\ active_courses st' = []).
Proof.
  split; [vm_compute; reflexivity|]. split; [vm_compute; reflexivity|].
  split.
  { exists (state_of (load_student_data refused_3)).
    split; [vm_compute; reflexivity|]. split; vm_compute; reflexivity. }
  split.
  - intros st H. unfold read_data_file. now rewrite H.
  - exists (state_of (load_student_data (set_disk_file (Some Unparsable) refused_3))).
    split; [vm_compute; reflexivity|]. split; vm_compute; reflexivity.
Qed.

(** ** Editing a saved course *)

Lemma dict_get_none_keys {V : Type} (k : string) (d : dict V) :
  dict_get k d = None <-> ~ In k (dict_keys d).
Proof.
  induction d as [|[k0 v0] r IH]; simpl; [tauto|].
  destruct (String.eqb_spec k k0) as [->|E].
  - split; [discriminate | intros H; exfalso; apply H; now left].
  - rewrite IH. split; [intros H [K|K]; [congruence | auto] | tauto].
Qed.

Lemma dict_del_keys {V : Type} (k : string) (d d' : dict V) (k' : string) :
  dict_del k d = Some d' -> In k' (dict_keys d') -> In k' (dict_keys d).
Proof.
  intros H K. unfold dict_keys in *. apply in_map_iff in K as ([k0 v0] & <- & K).
  apply in_map_iff. exists (k0, v0). split; [reflexivity|].
  eapply dict_del_In; eassumption.
Qed.

Lemma dict_del_present {V : Type} (k : string) (d : dict V) (v : V) :
  dict_get k d = Some v ->
  exists d',
    dict_del k d = Some d'
    /\ (forall k', k' <> k -> dict_get k' d' = dict_get k' d)
    /\ (dict_wf d -> dict_get k d' = None /\ dict_wf d').
Proof.
  induction d as [|[k0 v0] r IH]; simpl; [discriminate|].
  destruct (String.eqb_spec k k0) as [->|E].
  - intros _. exists r. split; [reflexivity|]. split.
    + intros k' Hk. destruct (String.eqb_spec k' k0); [contradiction | reflexivity].
    + unfold dict_wf; simpl. intros H. inversion H; subst.
      split; [now apply dict_get_none_keys | assumption].
  - intros H. destruct (IH H) as (r' & Hd & Ho & Hw). rewrite Hd.
    exists ((k0, v0) :: r'). split; [reflexivity|]. split.
    + intros k' Hk. simpl. destruct (String.eqb k' k0); [reflexivity | auto].
    + unfold dict_wf in *; simpl. intros Hnd. inversion Hnd as [|? ? Hn Hr]; subst.
      destruct (Hw Hr) as [Hg Hr']. split.
      * destruct (String.eqb_spec k k0); [contradiction | assumption].
      * constructor; [|assumption]. intros K. apply Hn.
        eapply dict_del_keys; eassumption.
Qed.


Lemma save_student_data_frame (auto : bool) (st : app) :
  active_courses (save_student_data auto st) = active_courses st
  /\ current_course_sections (save_student_data auto st) = current_course_sections st.
Proof.
  unfold save_student_data.
  destruct (sid_truthy (active_student_id st)); cbn [negb].
  - assert (E : active_courses (ensure_student (sid_text (active_student_id st)) st)
                = active_courses st
                /\ current_course_sections
                     (ensure_student (sid_text (active_student_id st)) st)
                   = current_course_sections st).
    { unfold ensure_student.
      destruct (negb (dict_in (sid_text (active_student_id st)) (users_data st)));
        destruct st; split; reflexivity. }
    destruct E as [E1 E2].
    destruct (ensure_student (sid_text (active_student_id st)) st);
      cbn in E1, E2 |- *.
    destruct write_error0, auto; cbn; split; assumption.
  - destruct auto, st; split; reflexivity.
Qed.

Lemma edit_course_done (st : app) (index : nat) (rest : list nat)
    (c : string) (sections : list section) (d : dict (list section)) :
  nth_error (saved_courses_listbox st) index = Some c ->
  dict_get c (active_courses st) = Some sections ->
  dict_del c (active_courses st) = Some d ->
  exists st',
    edit_course (index :: rest) st = Done st'
    /\ active_courses st' = d
    /\ saved_courses_listbox st' = dict_keys d
    /\ entry_course_name st' = c
    /\ current_course_sections st' = sections
    /\ current_sections_listbox st' = map section_line sections
    /\ users_data st' = users_data st
    /\ active_student_id st' = active_student_id st
    /\ disk_file st' = disk_file st
    /\ write_error st' = write_error st.
Proof.
  intros Hn Hg Hd. unfold edit_course.
  rewrite (nth_error_nth _ _ EmptyString Hn).
  destruct st; cbn in Hn, Hg, Hd |- *. rewrite Hg, Hd.
  eexists. split; [reflexivity|]. cbn. repeat split.
Qed.

Lemma save_course_done (st : app) (x : section) (r : list section) :
  sid_truthy (active_student_id st) = true ->
  str_truthy (strip (entry_course_name st)) = true ->
  current_course_sections st = x :: r ->
  active_courses (save_course st)
  = dict_set (strip (entry_course_name st)) (x :: r) (active_courses st).
Proof.
  intros Ha Ht Hc. unfold save_course. rewrite Ha, Ht, Hc. cbn [negb].
  destruct st; reflexivity.
Qed.

(** * Further properties of the code *)

(** ** The validator, section by section *)

Lemma is_valid_schedule_cons (a : section) (r : list section) :
  is_valid_schedule (a :: r) = true <->
  (forall b, In b r -> times_overlap a b = false) /\ is_valid_schedule r = true.
Proof.
  rewrite !is_valid_schedule_ordered. split.
  - intros H. split.
    + intros b Hb. apply In_nth_error in Hb as [j Hj].
      apply (H 0%nat (S j)); [lia | reflexivity | exact Hj].
    + intros i j x y Hij Hx Hy. apply (H (S i) (S j)); [lia | exact Hx | exact Hy].
  - intros [Ha Hr] i j x y Hij Hx Hy.
    destruct j as [|j]; [lia|]. simpl in Hy.
    destruct i as [|i]; simpl in Hx.
    + injection Hx as <-. apply Ha. eapply nth_error_In; eassumption.
    + apply (Hr i j); [lia | exact Hx | exact Hy].
Qed.

Lemma is_valid_schedule_pairs (s : list section) :
  is_valid_schedule s = true <->
  ForallOrdPairs (fun a b => times_overlap a b = false) s.
Proof.
  induction s as [|a r IH].
  - split; [constructor | reflexivity].
  - rewrite is_valid_schedule_cons, IH. split.
    + intros [Ha Hr]. constructor; [now apply Forall_forall | assumption].
    + intros H. inversion H as [|? ? Ha Hr]; subst.
      split; [now apply Forall_forall | assumption].
Qed.

Lemma no_overlap_pairs_perm (s s' : list section) :
  Permutation s s' ->
  ForallOrdPairs (fun a b => times_overlap a b = false) s ->
  ForallOrdPairs (fun a b => times_overlap a b = false) s'.
Proof.
  induction 1 as [|a l l' Hp IH|a b l|l l' l'' _ IH1 _ IH2]; intros H.
  - constructor.
  - inversion H as [|? ? Ha Hl]; subst.
    constructor; [eapply Permutation_Forall; eassumption | now apply IH].
  - inversion H as [|? ? Hb Hl]; subst.
    inversion Hl as [|? ? Ha Hl']; subst.
    inversion Hb as [|? ? Hba Hbl]; subst.
    constructor; [|constructor; assumption].
    constructor; [|assumption]. now rewrite times_overlap_comm.
  - auto.
Qed.

(** X1. Whether a schedule is valid does not depend on the order in which
    its sections are listed. *)
Theorem is_valid_schedule_permutation :
  forall s s' : list section,
    Permutation s s' -> is_valid_schedule s = is_valid_schedule s'.
Proof.
  intros s s' Hp.
  destruct (is_valid_schedule s) eqn:E, (is_valid_schedule s') eqn:E';
    try reflexivity.
  - apply is_valid_schedule_pairs in E.
    apply (no_overlap_pairs_perm _ _ Hp), is_valid_schedule_pairs in E. congruence.
  - apply is_valid_schedule_pairs in E'.
    apply (no_overlap_pairs_perm _ _ (Permutation_sym Hp)),
      is_valid_schedule_pairs in E'. congruence.
Qed.

Lemma is_valid_schedule_permutation_witness :
  is_valid_schedule [("Mon", hm 8 0, hm 9 0); ("Tue", hm 8 0, hm 9 0)]
  = is_valid_schedule [("Tue", hm 8 0, hm 9 0); ("Mon", hm 8 0, hm 9 0)].
Proof.
  apply (is_valid_schedule_permutation
           [("Mon", hm 8 0, hm 9 0); ("Tue", hm 8 0, hm 9 0)]
           [("Tue", hm 8 0, hm 9 0); ("Mon", hm 8 0, hm 9 0)]).
  apply perm_swap.
Defined.

Lemma times_overlap_self (a : section) :
  section_ok a -> times_overlap a a = true.
Proof.
  intros H. apply times_overlap_true. unfold same_day. auto.
Qed.

(** X2. A section that ends after it starts overlaps itself, so a valid
    schedule of such sections holds no section twice: two courses that offer
    the very same section cannot both take it. *)
Theorem valid_schedule_no_repeats :
  forall s : list section,
    is_valid_schedule s = true -> Forall section_ok s -> NoDup s.
Proof.
  induction s as [|a r IH]; intros Hv Hok; [constructor|].
  apply is_valid_schedule_cons in Hv as [Ha Hr].
  inversion Hok as [|? ? Hoa Hor]; subst.
  constructor; [|now apply IH].
  intros Hin. specialize (Ha a Hin).
  rewrite (times_overlap_self a Hoa) in Ha. discriminate.
Qed.

Lemma valid_schedule_no_repeats_witness :
  NoDup [("Mon", hm 8 0, hm 9 0); ("Mon", hm 9 0, hm 10 0)].
Proof.
  apply (valid_schedule_no_repeats
           [("Mon", hm 8 0, hm 9 0); ("Mon", hm 9 0, hm 10 0)]).
  - reflexivity.
  - repeat constructor; unfold section_ok, time_before; simpl; lia.
Defined.

(** ** The valid schedules of a catalog *)

Lemma dict_get_In_wf {V : Type} (d : dict V) (k : string) (v : V) :
  dict_wf d -> In (k, v) d -> dict_get k d = Some v.
Proof.
  unfold dict_wf. induction d as [|[k0 v0] r IH]; simpl; [tauto|].
  intros Hnd H. inversion Hnd as [|? ? Hn Hr]; subst.
  destruct H as [H|H].
  - injection H as -> ->. now rewrite String.eqb_refl.
  - destruct (String.eqb_spec k k0) as [->|E]; [|auto].
    exfalso. apply Hn. apply in_map_iff. exists (k0, v). auto.
Qed.

Lemma sections_of_items (active items : dict (list section)) :
  (forall k v, In (k, v) items -> dict_get k active = Some v) ->
  sections_of active (dict_keys items) = Some (map snd items).
Proof.
  induction items as [|[k v] r IH]; intros H; simpl; [reflexivity|].
  rewrite (H k v) by now left.
  rewrite IH; [reflexivity | intros; apply H; now right].
Qed.

Lemma valid_schedules_filter (active : dict (list section)) :
  dict_wf active ->
  valid_schedules active = filter is_valid_schedule (product (map snd active)).
Proof.
  intros Hwf. unfold valid_schedules, all_combinations.
  rewrite (sections_of_items active active); [reflexivity|].
  intros k v. now apply dict_get_In_wf.
Qed.

(** X3. The valid schedules of a catalog are exactly the lists that take
    one section from every course, in the order of the courses, without two
    overlapping sections: none is missed and nothing else is produced. *)
Theorem valid_schedules_sound_complete :
  forall (active : dict (list section)) (combo : list section),
    dict_wf active ->
    (In combo (valid_schedules active) <->
     Forall2 (@In section) combo (map snd active)
     /\ is_valid_schedule combo = true).
Proof.
  intros active combo Hwf.
  rewrite (valid_schedules_filter active Hwf), filter_In, product_In. tauto.
Qed.

Lemma valid_schedules_sound_complete_witness :
  In [("Mon", hm 9 30, hm 10 30); ("Mon", hm 8 30, hm 9 15)]
     (valid_schedules catalog_A).
Proof.
  apply (valid_schedules_sound_complete catalog_A).
  - unfold dict_wf; simpl. repeat constructor; simpl; intuition discriminate.
  - split; [|reflexivity].
    constructor; [simpl; auto|]. constructor; [simpl; auto | constructor].
Defined.

Lemma filter_length_all {A : Type} (f : A -> bool) (l : list A) :
  (List.length (filter f l) <= List.length l)%nat
  /\ (List.length (filter f l) = List.length l <-> forall x, In x l -> f x = true).
Proof.
  induction l as [|a r [IH1 IH2]]; simpl.
  - split; [lia | tauto].
  - destruct (f a) eqn:E; simpl.
    + split; [lia|]. split.
      * intros H x [<-|Hx]; [assumption | apply IH2; [lia | assumption]].
      * intros H. f_equal. apply IH2. auto.
    + split; [lia|]. split; [lia|].
      intros H. rewrite (H a) in E by now left. discriminate.
Qed.

(** X4. A catalog has at most as many valid schedules as the product of
    its courses' section counts, and exactly that many when no choice of one
    section per course contains an overlap. *)
Theorem valid_schedules_count :
  forall active : dict (list section),
    dict_wf active ->
    (List.length (valid_schedules active)
     <= fold_right Nat.mul 1 (map (fun item => List.length (snd item)) active))%nat
    /\ (List.length (valid_schedules active)
        = fold_right Nat.mul 1%nat (map (fun item => List.length (snd item)) active)
        <-> forall combo,
              Forall2 (@In section) combo (map snd active) ->
              is_valid_schedule combo = true).
Proof.
  intros active Hwf.
  rewrite (valid_schedules_filter active Hwf).
  assert (E : fold_right Nat.mul 1%nat
                (map (fun item : string * list section => List.length (snd item)) active)
              = List.length (product (map snd active))).
  { rewrite product_length, map_map. reflexivity. }
  rewrite E.
  destruct (filter_length_all is_valid_schedule (product (map snd active)))
    as [H1 H2].
  split; [exact H1|]. rewrite H2. split.
  - intros H combo Hc. apply H. now apply product_In.
  - intros H combo Hc. apply H. now apply product_In.
Qed.

Lemma valid_schedules_count_witness :
  (List.length (valid_schedules catalog_A) <= 2 * (1 * 1))%nat.
Proof.
  apply (valid_schedules_count catalog_A).
  unfold dict_wf; simpl. repeat constructor; simpl; intuition discriminate.
Defined.

(** ** What [string_to_time] accepts *)

Lemma char_in_range (c : ascii) (lo hi : nat) :
  char_in c lo hi = true -> (lo <= nat_of_ascii c <= hi)%nat.
Proof.
  unfold char_in. intros H. apply andb_true_iff in H as [H1 H2].
  apply Nat.leb_le in H1, H2. lia.
Qed.

Lemma is_digit_range (c : ascii) : is_digit c = true -> 0 <= digit_val c <= 9.
Proof.
  intros H. apply (char_in_range c 48 57) in H. unfold digit_val. lia.
Qed.

Lemma match_H_range (s : string) (h : Z) (r : string) :
  In (h, r) (match_H s) -> 0 <= h <= 23.
Proof.
  unfold match_H. intros H. apply in_app_or in H as [H|H].
  - destruct s as [|a [|b s]]; try destruct H.
    apply in_app_or in H as [H|H].
    + destruct (Ascii.eqb a "2" && char_in b 48 51) eqn:E; [|destruct H].
      destruct H as [H|[]].
      assert (Hh : h = 20 + digit_val b) by congruence.
      apply andb_true_iff in E as [_ E].
      apply char_in_range in E. unfold digit_val in Hh. lia.
    + destruct (char_in a 48 49 && is_digit b) eqn:E; [|destruct H].
      destruct H as [H|[]].
      assert (Hh : h = 10 * digit_val a + digit_val b) by congruence.
      apply andb_true_iff in E as [E1 E2].
      apply char_in_range in E1. pose proof (is_digit_range b E2).
      unfold digit_val in *. lia.
  - destruct s as [|a s]; [destruct H|].
    destruct (is_digit a) eqn:E; [|destruct H].
    destruct H as [H|[]].
    assert (Hh : h = digit_val a) by congruence.
    pose proof (is_digit_range a E). lia.
Qed.

Lemma match_M_range (s : string) (m : Z) (r : string) :
  In (m, r) (match_M s) -> 0 <= m <= 59.
Proof.
  unfold match_M. intros H. apply in_app_or in H as [H|H].
  - destruct s as [|a [|b s]]; try destruct H.
    destruct (char_in a 48 53 && is_digit b) eqn:E; [|destruct H].
    destruct H as [H|[]].
    assert (Hm : m = 10 * digit_val a + digit_val b) by congruence.
    apply andb_true_iff in E as [E1 E2].
    apply char_in_range in E1. pose proof (is_digit_range b E2).
    unfold digit_val in *. lia.
  - destruct s as [|a s]; [destruct H|].
    destruct (is_digit a) eqn:E; [|destruct H].
    destruct H as [H|[]].
    assert (Hm : m = digit_val a) by congruence.
    pose proof (is_digit_range a E). lia.
Qed.

Lemma first_match_range (hs : list (Z * string)) (h m : Z) (rest : string) :
  (forall h' r, In (h', r) hs -> 0 <= h' <= 23) ->
  first_match hs = Some (h, m, rest) ->
  0 <= h <= 23 /\ 0 <= m <= 59.
Proof.
  induction hs as [|[h0 r0] hs IH]; intros Hh H; simpl in H; [discriminate|].
  assert (Hhs : forall h' r, In (h', r) hs -> 0 <= h' <= 23)
    by (intros; eapply Hh; right; eassumption).
  destruct r0 as [|c r']; [now apply IH|].
  destruct (Ascii.eqb c ":"); [|now apply IH].
  destruct (match_M r') as [|[m0 rest0] ms] eqn:E; [now apply IH|].
  injection H as <- <- <-. split.
  - apply (Hh h0 (String c r')). now left.
  - apply (match_M_range r' m0 rest0). rewrite E. now left.
Qed.

Lemma string_to_time_valid (s : string) (t : time) :
  string_to_time s = inr t -> valid_time t /\ minute_resolution t.
Proof.
  unfold string_to_time.
  destruct (first_match (match_H s)) as [[[h m] rest]|] eqn:E; [|discriminate].
  destruct rest; [|discriminate]. intros H. injection H as <-.
  destruct (first_match_range (match_H s) h m EmptyString (match_H_range s) E).
  unfold valid_time, minute_resolution; simpl. lia.
Qed.

(** X5. Whatever text it is given, [string_to_time] either raises or
    returns a time of the clock with zero seconds, and that time is
    reproduced by formatting it and parsing it again; formatting a time that
    has seconds and parsing the text returns the time cut to the minute. *)
Theorem string_to_time_normal_form :
  (forall (s : string) (t : time),
      string_to_time s = inr t ->
      valid_time t /\ minute_resolution t
      /\ string_to_time (time_to_string t) = inr t)
  /\ (forall t : time,
         valid_time t ->
         string_to_time (time_to_string t) = inr (mk_time (hour t) (minute t) 0 0)).
Proof.
  split.
  - intros s t H. destruct (string_to_time_valid s t H) as [Hv Hm].
    split; [exact Hv|]. split; [exact Hm|].
    now apply string_to_time_to_string.
  - intros t (Hh & Hm & _).
    change (time_to_string t)
      with (time_to_string (mk_time (hour t) (minute t) 0 0)).
    apply string_to_time_to_string.
    + unfold valid_time; simpl. lia.
    + split; reflexivity.
Qed.

Lemma string_to_time_normal_form_witness :
  string_to_time (time_to_string (hm 9 5)) = inr (hm 9 5)
  /\ string_to_time (time_to_string (mk_time 9 5 42 7)) = inr (hm 9 5).
Proof.
  split.
  - refine (proj2 (proj2 (proj1 string_to_time_normal_form "9:5" (hm 9 5) _))).
    reflexivity.
  - refine (proj2 string_to_time_normal_form (mk_time 9 5 42 7) _).
    unfold valid_time; simpl. lia.
Defined.

(** ** The sort is the stable one *)

Lemma time_eqb_refl (t : time) : time_eqb t t = true.
Proof. unfold time_eqb. now rewrite !Z.eqb_refl. Qed.

Lemma key_eqb_not_lt (k1 k2 k : Z * time) :
  key_eqb k1 k = true -> key_eqb k2 k = true -> key_lt k1 k2 = false.
Proof.
  unfold key_eqb, key_lt. intros H1 H2.
  apply andb_true_iff in H1 as [A1 B1]. apply andb_true_iff in H2 as [A2 B2].
  apply Z.eqb_eq in A1, A2. apply time_eqb_eq in B1, B2.
  rewrite A1, A2, Z.eqb_refl, B1, B2.
  unfold time_lt. replace (time_cmp (snd k) (snd k)) with Eq; [reflexivity|].
  symmetry. now apply time_cmp_eq.
Qed.

Lemma insert_by_key_filter (k : Z * time) (x : info) (l : list info) :
  filter (fun y => key_eqb (sort_key y) k) (insert_by_key x l)
  = filter (fun y => key_eqb (sort_key y) k) (x :: l).
Proof.
  induction l as [|y r IH]; [reflexivity|].
  cbn [insert_by_key].
  destruct (key_lt (sort_key y) (sort_key x)) eqn:L; [|reflexivity].
  cbn [filter] in IH |- *. rewrite IH.
  destruct (key_eqb (sort_key x) k) eqn:Ex, (key_eqb (sort_key y) k) eqn:Ey;
    try reflexivity.
  rewrite (key_eqb_not_lt _ _ k Ey Ex) in L. discriminate.
Qed.

Lemma key_le_not_lt (x y : info) :
  key_le x y -> key_lt (sort_key y) (sort_key x) = false.
Proof.
  unfold key_le, key_lt, sort_key; simpl. intros [H|[H T]].
  - destruct (Z.eqb_spec (get_day_index (info_day y)) (get_day_index (info_day x)));
      [lia | apply Z.ltb_ge; lia].
  - rewrite H, Z.eqb_refl. apply time_le_not_after in T.
    rewrite time_le_not_lt in T. now apply negb_true_iff in T.
Qed.

(** X6. The display sort is stable and changes nothing that is already in
    order: entries with the same key [(day index, start)] keep the order
    they had, which is the order of their courses, and a list whose keys
    never decrease is returned as it is. *)
Theorem sort_by_key_stable :
  (forall (l : list info) (k : Z * time),
      filter (fun y => key_eqb (sort_key y) k) (sort_by_key l)
      = filter (fun y => key_eqb (sort_key y) k) l)
  /\ (forall l : list info, StronglySorted key_le l -> sort_by_key l = l)
  /\ (forall l : list info, sort_by_key (sort_by_key l) = sort_by_key l).
Proof.
  assert (Hfix : forall l : list info, StronglySorted key_le l -> sort_by_key l = l).
  { induction l as [|x l IH]; intros H; [reflexivity|].
    inversion H as [|? ? Hl Hx]; subst. simpl. rewrite (IH Hl).
    destruct l as [|y r]; [reflexivity|]. simpl.
    inversion Hx as [|? ? Hxy _]; subst.
    now rewrite (key_le_not_lt x y Hxy). }
  split.
  - intros l k. induction l as [|x l IH]; [reflexivity|].
    simpl sort_by_key. rewrite insert_by_key_filter.
    cbn [filter]. now rewrite IH.
  - split; [exact Hfix|].
    intros l. apply Hfix, sort_by_key_sorted.
Qed.

Lemma sort_by_key_stable_witness :
  sort_by_key [ ("Monday", hm 8 0, hm 9 0, "A"); ("Tuesday", hm 8 0, hm 9 0, "B") ]
  = [ ("Monday", hm 8 0, hm 9 0, "A"); ("Tuesday", hm 8 0, hm 9 0, "B") ].
Proof.
  apply (proj1 (proj2 sort_by_key_stable)).
  constructor.
  - constructor; constructor.
  - constructor; [|constructor]. left. vm_compute. reflexivity.
Defined.

(** ** Letter case of the day *)







(** ** Saving and deleting a course *)

Lemma dict_set_keys {V : Type} (k : string) (v : V) (d : dict V) :
  dict_keys (dict_set k v d)
  = if dict_in k d then dict_keys d else dict_keys d ++ [k].
Proof.
  unfold dict_in. induction d as [|[k0 v0] r IH]; simpl; [reflexivity|].
  destruct (String.eqb_spec k k0) as [->|E]; simpl; [reflexivity|].
  rewrite IH. destruct (dict_get k r); reflexivity.
Qed.

Lemma dict_set_wf {V : Type} (k : string) (v : V) (d : dict V) :
  dict_wf d -> dict_wf (dict_set k v d).
Proof.
  unfold dict_wf. intros H. rewrite dict_set_keys.
  destruct (dict_in k d) eqn:E; [assumption|].
  apply NoDup_app; [assumption | repeat constructor; simpl; tauto|].
  intros x Hx [<-|[]]. unfold dict_in in E.
  destruct (dict_get_key d k Hx) as [w Hw]. rewrite Hw in E. discriminate.
Qed.

(** X8. With a student loaded, a name typed and at least one pending
    section, [save_course] stores the pending sections under the stripped
    name and empties the editor: looking the name up gives these sections,
    every other course is as before, a course that existed keeps its place
    and a new one goes last, and the list of saved courses shows the
    catalog. *)
Theorem save_course_stores :
  forall (st : app) (x : section) (r : list section),
    sid_truthy (active_student_id st) = true ->
    str_truthy (strip (entry_course_name st)) = true ->
    current_course_sections st = x :: r ->
    dict_get (strip (entry_course_name st)) (active_courses (save_course st))
    = Some (x :: r)
    /\ (forall c, c <> strip (entry_course_name st) ->
          dict_get c (active_courses (save_course st))
          = dict_get c (active_courses st))
    /\ dict_keys (active_courses (save_course st))
       = (if dict_in (strip (entry_course_name st)) (active_courses st)
          then dict_keys (active_courses st)
          else dict_keys (active_courses st) ++ [strip (entry_course_name st)])
    /\ saved_courses_listbox (save_course st)
       = dict_keys (active_courses (save_course st))
    /\ current_course_sections (save_course st) = []
    /\ current_sections_listbox (save_course st) = []
    /\ entry_course_name (save_course st) = EmptyString
    /\ users_data (save_course st) = users_data st
    /\ disk_file (save_course st) = disk_file st.
Proof.
  intros st x r Ha Ht Hc.
  rewrite (save_course_done st x r Ha Ht Hc).
  split; [apply dict_get_set_same|].
  split; [intros c Hne; now apply dict_get_set_other|].
  split; [apply dict_set_keys|].
  unfold save_course. rewrite Ha, Ht, Hc. cbn [negb].
  destruct st; repeat split.
Qed.

Lemma save_course_stores_witness :
  dict_get "Phys"
    (active_courses
       (save_course
          (state_of (add_section (set_entry_course_name " Phys " (session None None))))))
  = Some [("Monday", hm 8 30, hm 10 20)].
Proof.
  refine (proj1 (save_course_stores
                   (state_of
                      (add_section (set_entry_course_name " Phys " (session None None))))
                   ("Monday", hm 8 30, hm 10 20) [] _ _ _));
    reflexivity.
Defined.

(** X9. Without a loaded student, without a course name or without a
    pending section, [save_course] only writes a message: the catalog, the
    editor and the file stay as they were. *)
Theorem save_course_rejects :
  forall st : app,
    sid_truthy (active_student_id st) = false
    \/ str_truthy (strip (entry_course_name st)) = false
    \/ current_course_sections st = [] ->
    (exists msg, save_course st = output_message msg st)
    /\ same_but_output (save_course st) st.
Proof.
  intros st H.
  assert (E : exists msg, save_course st = output_message msg st).
  { unfold save_course.
    destruct (sid_truthy (active_student_id st)); cbn [negb]; [|eauto].
    destruct (str_truthy (strip (entry_course_name st))); cbn [negb]; [|eauto].
    destruct (current_course_sections st); [eauto|].
    destruct H as [H|[H|H]]; discriminate. }
  split; [exact E|]. destruct E as [msg ->]. apply output_message_same.
Qed.

Lemma save_course_rejects_witness :
  same_but_output (save_course (session None None)) (session None None).
Proof.
  apply (save_course_rejects (session None None)).
  right. left. reflexivity.
Defined.

Lemma delete_course_result (st : app) (index : nat) (rest : list nat) :
  active_courses (delete_course (index :: rest) st)
  = match dict_del (nth index (saved_courses_listbox st) EmptyString)
                   (active_courses st) with
    | Some d => d
    | None => active_courses st
    end
  /\ saved_courses_listbox (delete_course (index :: rest) st)
     = dict_keys (active_courses (delete_course (index :: rest) st))
  /\ current_course_sections (delete_course (index :: rest) st)
     = current_course_sections st
  /\ current_sections_listbox (delete_course (index :: rest) st)
     = current_sections_listbox st
  /\ users_data (delete_course (index :: rest) st) = users_data st
  /\ disk_file (delete_course (index :: rest) st) = disk_file st.
Proof.
  unfold delete_course.
  remember (nth index (saved_courses_listbox st) EmptyString) as c eqn:Hc.
  clear Hc.
  destruct (dict_del c (active_courses st)) as [d|] eqn:E;
    destruct st; cbn in E |- *; repeat split.
Qed.

Lemma dict_del_absent {V : Type} (k : string) (d : dict V) :
  dict_get k d = None -> dict_del k d = None.
Proof.
  induction d as [|[k0 v0] r IH]; simpl; [reflexivity|].
  destruct (String.eqb k k0); [discriminate|].
  intros H. now rewrite IH.
Qed.

(** X10. [delete_course] on a listed course removes that course and no
    other from the catalog and refreshes the list of saved courses, leaving
    the editor, the table of students and the file alone; when the selected
    name is not in the catalog nothing is removed and nothing is raised;
    without a selection it only writes a message. *)
Theorem delete_course_removes :
  (forall (st : app) (index : nat) (rest : list nat) (c : string)
          (sections : list section),
      dict_wf (active_courses st) ->
      nth_error (saved_courses_listbox st) index = Some c ->
      dict_get c (active_courses st) = Some sections ->
      dict_get c (active_courses (delete_course (index :: rest) st)) = None
      /\ (forall c', c' <> c ->
            dict_get c' (active_courses (delete_course (index :: rest) st))
            = dict_get c' (active_courses st))
      /\ ~ In c (saved_courses_listbox (delete_course (index :: rest) st))
      /\ current_course_sections (delete_course (index :: rest) st)
         = current_course_sections st
      /\ users_data (delete_course (index :: rest) st) = users_data st
      /\ disk_file (delete_course (index :: rest) st) = disk_file st)
  /\ (forall (st : app) (index : nat) (rest : list nat),
         dict_get (nth index (saved_courses_listbox st) EmptyString)
                  (active_courses st) = None ->
         active_courses (delete_course (index :: rest) st) = active_courses st)
  /\ (forall st : app,
         delete_course [] st = output_message "No course selected to delete." st).
Proof.
  split.
  { intros st index rest c sections Hwf Hn Hg.
    destruct (delete_course_result st index rest) as (Ha & Hl & Hc & _ & Hu & Hf).
    rewrite (nth_error_nth _ _ EmptyString Hn) in Ha.
    destruct (dict_del_present c (active_courses st) sections Hg)
      as (d & Hd & Hother & Hw).
    destruct (Hw Hwf) as [Hnone _].
    rewrite Hd in Ha. rewrite Hl, Ha.
    split; [exact Hnone|]. split; [exact Hother|].
    split; [now apply dict_get_none_keys|].
    split; [exact Hc|]. split; [exact Hu | exact Hf]. }
  split.
  { intros st index rest H.
    destruct (delete_course_result st index rest) as (Ha & _).
    rewrite Ha. now rewrite (dict_del_absent _ _ H). }
  reflexivity.
Qed.

Lemma delete_course_removes_witness :
  dict_get "Phys"
    (active_courses
       (delete_course [1%nat] (refresh_saved_courses_listbox (session None None))))
  = None.
Proof.
  refine (proj1 (proj1 delete_course_removes
                       (refresh_saved_courses_listbox (session None None)) 1%nat []
                       "Phys" [("Mon", hm 8 30, hm 9 15)] _ _ _)).
  - unfold dict_wf; simpl. repeat constructor; simpl; intuition discriminate.
  - reflexivity.
  - reflexivity.
Defined.

(** ** Adding and deleting a pending section *)

Lemma remove_nth_nth_error {A : Type} (i j : nat) (l : list A) :
  nth_error (remove_nth i l) j
  = if (j <? i)%nat then nth_error l j else nth_error l (S j).
Proof.
  revert i j. induction l as [|x r IH]; intros i j.
  - destruct (j <? i)%nat, i, j; reflexivity.
  - destruct i as [|i]; [reflexivity|].
    destruct j as [|j]; [reflexivity|].
    simpl remove_nth. simpl nth_error at 1. rewrite IH.
    change (S j <? S i)%nat with (j <? i)%nat.
    destruct (j <? i)%nat; reflexivity.
Qed.

Lemma remove_nth_length {A : Type} (i : nat) (l : list A) :
  (i < List.length l)%nat -> S (List.length (remove_nth i l)) = List.length l.
Proof.
  revert i. induction l as [|x r IH]; intros i H; simpl in H; [lia|].
  destruct i as [|i]; simpl; [reflexivity|]. rewrite IH; [reflexivity | lia].
Qed.

Lemma remove_nth_beyond {A : Type} (i : nat) (l : list A) :
  (List.length l <= i)%nat -> remove_nth i l = l.
Proof.
  revert i. induction l as [|x r IH]; intros i H; [destruct i; reflexivity|].
  simpl in H. destruct i as [|i]; [lia|]. simpl. rewrite IH; [reflexivity | lia].
Qed.

Lemma remove_nth_map {A B : Type} (f : A -> B) (i : nat) (l : list A) :
  remove_nth i (map f l) = map f (remove_nth i l).
Proof.
  revert i. induction l as [|x r IH]; intros [|i]; simpl; try reflexivity.
  now rewrite IH.
Qed.

Lemma delete_section_result (st : app) (i : nat) (rest : list nat) :
  (i < List.length (current_course_sections st))%nat ->
  exists st',
    delete_section (i :: rest) st = Done st'
    /\ current_course_sections st' = remove_nth i (current_course_sections st)
    /\ current_sections_listbox st' = remove_nth i (current_sections_listbox st)
    /\ active_courses st' = active_courses st
    /\ saved_courses_listbox st' = saved_courses_listbox st
    /\ users_data st' = users_data st
    /\ disk_file st' = disk_file st.
Proof.
  intros H. apply Nat.ltb_lt in H. unfold delete_section.
  destruct st; cbn [current_course_sections set_current_sections_listbox] in H |- *.
  rewrite H. eexists. split; [reflexivity|]. repeat split.
Qed.

(** X11. [delete_section] with a selected position inside the pending
    list removes exactly the section at that position, from the list and
    from its list box: one section fewer, the sections before the position
    where they were, those after moved up by one; the catalog is untouched.
    A position past the end raises [IndexError] with the pending sections
    kept, and without a selection only a message is written. *)
Theorem delete_section_removes :
  (forall (st : app) (i : nat) (rest : list nat),
      (i < List.length (current_course_sections st))%nat ->
      exists st',
        delete_section (i :: rest) st = Done st'
        /\ S (List.length (current_course_sections st'))
           = List.length (current_course_sections st)
        /\ (forall j,
              nth_error (current_course_sections st') j
              = if (j <? i)%nat then nth_error (current_course_sections st) j
                else nth_error (current_course_sections st) (S j))
        /\ (current_sections_listbox st
            = map section_line (current_course_sections st) ->
            current_sections_listbox st'
            = map section_line (current_course_sections st'))
        /\ active_courses st' = active_courses st)
  /\ (forall (st : app) (i : nat) (rest : list nat),
         (List.length (current_course_sections st) <= i)%nat ->
         exists e st',
           delete_section (i :: rest) st = Raised (IndexError e) st'
           /\ current_course_sections st' = current_course_sections st
           /\ active_courses st' = active_courses st)
  /\ (forall st : app,
         delete_section [] st = Done (output_message "No section selected." st)).
Proof.
  split.
  { intros st i rest H.
    destruct (delete_section_result st i rest H)
      as (st' & He & Hc & Hl & Ha & _).
    exists st'. split; [exact He|]. rewrite Hc, Hl.
    split; [now apply remove_nth_length|].
    split; [intros j; apply remove_nth_nth_error|].
    split; [|exact Ha].
    intros Hs. rewrite Hs. apply remove_nth_map. }
  split.
  { intros st i rest H. apply Nat.ltb_ge in H. unfold delete_section.
    destruct st;
      cbn [current_course_sections set_current_sections_listbox] in H |- *.
    rewrite H. eexists. eexists. split; [reflexivity|]. split; reflexivity. }
  reflexivity.
Qed.

Lemma delete_section_removes_witness :
  exists st',
    delete_section [0%nat] (state_of (add_section (session None None))) = Done st'
    /\ S (List.length (current_course_sections st')) = 1%nat.
Proof.
  destruct (proj1 delete_section_removes
                  (state_of (add_section (session None None))) 0%nat [])
    as (st' & H1 & H2 & _).
  - simpl. lia.
  - exists st'. split; [exact H1 | exact H2].
Defined.

(** ** Loading a student *)

Lemma load_student_data_frame (st : app) :
  disk_file (state_of (load_student_data st)) = disk_file st
  /\ write_error (state_of (load_student_data st)) = write_error st
  /\ current_course_sections (state_of (load_student_data st))
     = current_course_sections st
  /\ current_sections_listbox (state_of (load_student_data st))
     = current_sections_listbox st
  /\ entry_student_id (state_of (load_student_data st)) = entry_student_id st.
Proof.
  unfold load_student_data.
  destruct (negb (str_truthy (strip (entry_student_id st)))).
  { destruct st; repeat split. }
  remember (strip (entry_student_id st)) as sid eqn:Hsid. clear Hsid.
  unfold read_data_file, ensure_student.
  destruct st as [ud a ac cs es ec dv sh sm eh em cl sl ob df we].
  cbn [disk_file]. destruct df as [[|d]|];
    cbn [users_data set_users_data];
    match goal with
    | |- context [negb (dict_in sid ?t)] => destruct (negb (dict_in sid t))
    end;
    cbn [users_data set_users_data set_active_student_id set_active_courses];
    match goal with
    | |- context [dict_get sid ?t] => destruct (dict_get sid t) as [u|]
    end;
    try (destruct (load_courses (courses u) []) as [[e acc]|acc]);
    repeat split.
Qed.

Lemma string_to_time_error (s : string) (e : exn) :
  string_to_time s = inl e -> exists msg, e = ValueError msg.
Proof.
  unfold string_to_time.
  destruct (first_match (match_H s)) as [[[h m] rest]|].
  - destruct rest; [discriminate|]. intros H. injection H as <-. eauto.
  - intros H. injection H as <-. eauto.
Qed.

Lemma parse_sections_error (l : list stored_section) (e : exn) :
  parse_sections l = inl e -> exists msg, e = ValueError msg.
Proof.
  induction l as [|[[day s] t] r IH]; cbn [parse_sections]; [discriminate|].
  destruct (string_to_time s) as [e1|a] eqn:Es.
  { intros H. injection H as <-. eapply string_to_time_error; eassumption. }
  destruct (string_to_time t) as [e2|b] eqn:Et.
  { intros H. injection H as <-. eapply string_to_time_error; eassumption. }
  destruct (parse_sections r) as [e3|ts]; [|discriminate].
  intros H. injection H as <-. now apply IH.
Qed.

Lemma parse_sections_parses (l : list stored_section) :
  (exists l', parse_sections l = inr l') <-> Forall parses l.
Proof.
  induction l as [|[[day s] t] r IH]; cbn [parse_sections].
  - split; [constructor | eauto].
  - unfold parses at 1. split.
    + intros [l' H].
      destruct (string_to_time s) as [e1|a] eqn:Es; [discriminate|].
      destruct (string_to_time t) as [e2|b] eqn:Et; [discriminate|].
      destruct (parse_sections r) as [e3|ts]; [discriminate|].
      constructor; [|apply IH; eauto].
      unfold parses; cbn [fst snd]. rewrite Es, Et. eauto.
    + intros H. inversion H as [|? ? [[a Ha] [b Hb]] Hr]; subst.
      cbn [fst snd] in Ha, Hb. rewrite Ha, Hb.
      apply IH in Hr as [ts ->]. eauto.
Qed.

Lemma load_courses_parses (items : list (string * list stored_section))
    (acc : dict (list section)) :
  (exists acc', load_courses items acc = inr acc') <->
  (forall c l, In (c, l) items -> Forall parses l).
Proof.
  revert acc. induction items as [|[c0 l0] r IH]; intros acc; cbn [load_courses].
  - split; [intros _ c l [] | eauto].
  - split.
    + intros [acc' H].
      destruct (parse_sections l0) as [e|ts] eqn:E; [discriminate|].
      intros c l [Hc|Hc].
      * injection Hc as <- <-. apply parse_sections_parses. eauto.
      * eapply (proj1 (IH _)); eauto.
    + intros H.
      destruct (proj2 (parse_sections_parses l0)) as [ts ->];
        [apply (H c0); now left|].
      apply IH. intros c l Hc. apply (H c). now right.
Qed.

Lemma load_courses_error (items : list (string * list stored_section))
    (acc acc' : dict (list section)) (e : exn) :
  load_courses items acc = inl (e, acc') -> exists msg, e = ValueError msg.
Proof.
  revert acc. induction items as [|[c0 l0] r IH]; intros acc; cbn [load_courses];
    [discriminate|].
  destruct (parse_sections l0) as [e0|ts] eqn:E.
  - intros H. injection H as <- _. eapply parse_sections_error; eassumption.
  - apply IH.
Qed.

Lemma load_student_data_raises (st : app) (sid : string) (d : users_table)
    (u : user_record) (e : exn) (acc : dict (list section)) :
  strip (entry_student_id st) = sid -> str_truthy sid = true ->
  disk_file st = Some (Json d) ->
  dict_get sid d = Some u ->
  load_courses (courses u) [] = inl (e, acc) ->
  exists st',
    load_student_data st = Raised e st'
    /\ active_student_id st' = Some sid
    /\ active_courses st' = acc
    /\ saved_courses_listbox st' = saved_courses_listbox st
    /\ output_box st' = output_box st
    /\ users_data st' = d.
Proof.
  intros He Ht Hf Hg Hl. unfold load_student_data.
  rewrite He, Ht. cbn [negb].
  unfold read_data_file. rewrite Hf.
  unfold ensure_student, dict_in.
  destruct st; cbn in Hf |- *. rewrite Hg. cbn. rewrite Hg, Hl.
  eexists. split; [reflexivity|]. cbn. auto.
Qed.

(** X13. Once the file parses and holds a record for the student,
    [load_student_data] returns exactly when every stored start and end time
    of that student is text [string_to_time] accepts.  Otherwise a
    [ValueError] leaves the callback, after the student has been made
    active: the catalog then holds only the courses that came before the
    bad one, the list of saved courses still shows what it showed before,
    and no message is written. *)
Theorem load_student_data_raises_on_bad_time :
  forall (st : app) (d : users_table) (u : user_record),
    str_truthy (strip (entry_student_id st)) = true ->
    disk_file st = Some (Json d) ->
    dict_get (strip (entry_student_id st)) d = Some u ->
    ((exists st', load_student_data st = Done st') <->
     (forall c l y, In (c, l) (courses u) -> In y l -> parses y))
    /\ (forall e st',
          load_student_data st = Raised e st' ->
          (exists msg, e = ValueError msg)
          /\ active_student_id st' = Some (strip (entry_student_id st))
          /\ saved_courses_listbox st' = saved_courses_listbox st
          /\ output_box st' = output_box st
          /\ users_data st' = d).
Proof.
  intros st d u Ht Hf Hg.
  destruct (load_courses (courses u) []) as [[e acc]|acc] eqn:El.
  - destruct (load_student_data_raises st _ d u e acc eq_refl Ht Hf Hg El)
      as (st1 & H1 & Ha & _ & Hs & Ho & Hu).
    split.
    + split.
      * intros [st' H]. congruence.
      * intros H.
        destruct (proj2 (load_courses_parses (courses u) [])) as [acc' K];
          [|congruence].
        intros c l Hc. apply Forall_forall. eauto.
    + intros e' st' H. rewrite H1 in H. injection H as <- <-.
      split; [eapply load_courses_error; eassumption | auto].
  - destruct (load_student_data_parsed st _ d u acc eq_refl Ht Hf Hg El)
      as (st1 & H1 & _).
    split.
    + split; [|eauto]. intros _ c l y Hc Hy.
      assert (K : Forall parses l)
        by (eapply (proj1 (load_courses_parses (courses u) [])); eauto).
      rewrite Forall_forall in K. auto.
    + intros e' st' H. congruence.
Qed.

Lemma load_student_data_raises_on_bad_time_witness :
  active_student_id (state_of (load_student_data bad_time_session)) = Some "s1".
Proof.
  refine (proj1 (proj2 (proj2 (load_student_data_raises_on_bad_time
                                 bad_time_session bad_time_table
                                 (mk_user [("Math", [("Monday", "9am", "10:00")])])
                                 _ _ _)
                              (ValueError "time data does not match format")
                              (state_of (load_student_data bad_time_session)) _)));
    vm_compute; reflexivity.
Defined.

Lemma load_student_data_unknown (st : app) (sid : string) (d : users_table) :
  strip (entry_student_id st) = sid -> str_truthy sid = true ->
  disk_file st = Some (Json d) ->
  dict_get sid d = None ->
  exists st',
    load_student_data st = Done st'
    /\ active_student_id st' = Some sid
    /\ active_courses st' = []
    /\ saved_courses_listbox st' = []
    /\ users_data st' = dict_set sid (mk_user []) d
    /\ disk_file st' = disk_file st.
Proof.
  intros He Ht Hf Hg. unfold load_student_data.
  rewrite He, Ht. cbn [negb].
  unfold read_data_file. rewrite Hf.
  unfold ensure_student, dict_in.
  destruct st; cbn in Hf |- *. rewrite Hg. cbn.
  rewrite dict_get_set_same. cbn.
  eexists. split; [reflexivity|]. cbn. auto.
Qed.

(** X14. With nothing but blanks in the student id box,
    [load_student_data] only asks for an id.  For an id the parsed file does
    not know, it returns with that student active and an empty catalog; the
    student gets an empty record at the end of the table in memory, the
    records of the other students are the file's, and the file itself is
    not written. *)
Theorem load_student_data_new_student :
  (forall st : app,
      str_truthy (strip (entry_student_id st)) = false ->
      load_student_data st
      = Done (output_message "Please enter a valid Student ID first." st))
  /\ (forall (st : app) (d : users_table),
         str_truthy (strip (entry_student_id st)) = true ->
         disk_file st = Some (Json d) ->
         dict_get (strip (entry_student_id st)) d = None ->
         exists st',
           load_student_data st = Done st'
           /\ active_student_id st' = Some (strip (entry_student_id st))
           /\ active_courses st' = []
           /\ saved_courses_listbox st' = []
           /\ users_data st' = d ++ [(strip (entry_student_id st), mk_user [])]
           /\ (forall sid', sid' <> strip (entry_student_id st) ->
                 dict_get sid' (users_data st') = dict_get sid' d)
           /\ disk_file st' = Some (Json d)).
Proof.
  split.
  - intros st H. unfold load_student_data. now rewrite H.
  - intros st d Ht Hf Hg.
    destruct (load_student_data_unknown st _ d eq_refl Ht Hf Hg)
      as (st' & H1 & H2 & H3 & H4 & H5 & H6).
    exists st'. split; [exact H1|]. split; [exact H2|]. split; [exact H3|].
    split; [exact H4|]. rewrite H5, H6. split.
    + apply dict_set_fresh. now apply dict_get_none_keys.
    + split; [|exact Hf]. intros sid' Hne. now apply dict_get_set_other.
Qed.

Lemma load_student_data_new_student_witness :
  exists st',
    load_student_data (set_entry_student_id "s2" bad_time_session) = Done st'
    /\ active_courses st' = [].
Proof.
  destruct (proj2 load_student_data_new_student
                  (set_entry_student_id "s2" bad_time_session) bad_time_table)
    as (st' & H1 & _ & H2 & _); try reflexivity.
  exists st'. split; [exact H1 | exact H2].
Defined.

(** ** Saving a student *)

Lemma ensure_student_other (sid sid' : string) (st : app) :
  sid' <> sid ->
  dict_get sid' (users_data (ensure_student sid st)) = dict_get sid' (users_data st).
Proof.
  intros Hne. unfold ensure_student.
  destruct (negb (dict_in sid (users_data st))); [|reflexivity].
  destruct st; cbn. now apply dict_get_set_other.
Qed.

(** X15. Saving the active student replaces that student's record by the
    [HH:MM] form of the catalog and leaves the record of every other
    student in the table as it was, whether or not the write succeeds; the
    catalog and the pending sections are not changed by a save; and with no
    active student a save touches neither the table nor the file. *)
Theorem save_student_data_other_students :
  (forall (st : app) (auto : bool) (sid : string),
      active_student_id st = Some sid -> str_truthy sid = true ->
      dict_get sid (users_data (save_student_data auto st))
      = Some (mk_user (final_dict (active_courses st)))
      /\ (forall sid', sid' <> sid ->
            dict_get sid' (users_data (save_student_data auto st))
            = dict_get sid' (users_data st)))
  /\ (forall (st : app) (auto : bool),
         active_courses (save_student_data auto st) = active_courses st
         /\ current_course_sections (save_student_data auto st)
            = current_course_sections st)
  /\ (forall (st : app) (auto : bool),
         sid_truthy (active_student_id st) = false ->
         users_data (save_student_data auto st) = users_data st
         /\ disk_file (save_student_data auto st) = disk_file st).
Proof.
  split.
  { intros st auto sid Ha Ht.
    destruct (save_student_data_effect st auto sid Ha Ht) as (Hu & _).
    rewrite Hu. split; [apply dict_get_set_same|].
    intros sid' Hne. rewrite dict_get_set_other by assumption.
    now apply ensure_student_other. }
  split.
  { intros st auto. apply save_student_data_frame. }
  intros st auto H. unfold save_student_data. rewrite H. cbn [negb].
  destruct auto, st; split; reflexivity.
Qed.

Lemma save_student_data_other_students_witness :
  dict_get "s1" (users_data (save_student_data true (session None None)))
  = Some (mk_user (final_dict catalog_A)).
Proof.
  refine (proj1 (proj1 save_student_data_other_students
                       (session None None) true "s1" _ _));
    reflexivity.
Defined.

(** ** The display callbacks *)

Lemma dict_set_not_nil {V : Type} (k : string) (v : V) (d : dict V) :
  dict_set k v d <> [].
Proof.
  destruct d as [|[k0 v0] r]; simpl; [discriminate|].
  destruct (String.eqb k k0); discriminate.
Qed.

Lemma show_all_users_parsed (st : app) (d : users_table) :
  disk_file st = Some (Json d) -> d <> [] ->
  output_box (show_all_users st)
  = (("All Users:" ++ nl ++ nl)
       ++ String.concat EmptyString (map user_line (dict_keys d)))%string
  /\ users_data (show_all_users st) = d.
Proof.
  intros Hf Hd. unfold show_all_users. rewrite Hf.
  destruct d as [|item r]; [congruence|].
  destruct st; split; reflexivity.
Qed.

(** X17. [show_all_users] writes one line per student id of the file, in
    the file's order, and takes the file's table into memory; right after a
    save that reached the disk the saved student is among them.  Without a
    file, or with one that does not parse, it only writes a message and
    keeps the table in memory. *)
Theorem show_all_users_lists_file :
  (forall (st : app) (d : users_table),
      disk_file st = Some (Json d) -> d <> [] ->
      output_box (show_all_users st)
      = (("All Users:" ++ nl ++ nl)
           ++ String.concat EmptyString (map user_line (dict_keys d)))%string
      /\ users_data (show_all_users st) = d)
  /\ (forall (st : app) (auto : bool) (sid : string),
         active_student_id st = Some sid -> str_truthy sid = true ->
         write_error st = None ->
         In sid (dict_keys (users_data (save_student_data auto st)))
         /\ output_box (show_all_users (save_student_data auto st))
            = (("All Users:" ++ nl ++ nl)
                 ++ String.concat EmptyString
                      (map user_line
                           (dict_keys (users_data (save_student_data auto st)))))%string)
  /\ (forall st : app,
         disk_file st = None \/ disk_file st = Some Unparsable ->
         same_but_output (show_all_users st) st
         /\ output_box (show_all_users st) <> output_box st).
Proof.
  split; [exact show_all_users_parsed|]. split.
  - intros st auto sid Ha Ht Hw.
    destruct (save_student_data_written st auto sid Ha Ht Hw) as (Hu & Hf & _).
    split.
    + rewrite Hu. eapply dict_get_in_keys. apply dict_get_set_same.
    + apply (show_all_users_parsed _ _ Hf). rewrite Hu. apply dict_set_not_nil.
  - intros st H. unfold show_all_users.
    assert (Hne : forall (t s : string), t <> EmptyString -> (s ++ t)%string <> s).
    { intros t s Ht. induction s as [|c s IH]; simpl; [exact Ht|].
      intros K. injection K as K. now apply IH. }
    destruct H as [-> | ->]; (split; [apply output_message_same|]);
      destruct st; cbn; apply Hne; discriminate.
Qed.

Lemma show_all_users_lists_file_witness :
  In "s1" (dict_keys (users_data (save_student_data false (session None None)))).
Proof.
  refine (proj1 (proj1 (proj2 show_all_users_lists_file)
                       (session None None) false "s1" _ _ _));
    reflexivity.
Defined.

(** X18. The callbacks that display never change what they display:
    [generate_schedules] and [show_all_courses] change the output box and
    nothing else, and [show_all_users] leaves the catalog, the editor, the
    active student and the file as they were. *)
Theorem display_callbacks_read_only :
  forall st : app,
    same_but_output (generate_schedules st) st
    /\ same_but_output (show_all_courses st) st
    /\ active_courses (show_all_users st) = active_courses st
    /\ current_course_sections (show_all_users st) = current_course_sections st
    /\ active_student_id (show_all_users st) = active_student_id st
    /\ disk_file (show_all_users st) = disk_file st.
Proof.
  intros st. split.
  { unfold generate_schedules.
    destruct (negb (sid_truthy (active_student_id st)));
      [apply output_message_same|].
    destruct (active_courses st) as [|item r]; [apply output_message_same|].
    destruct (all_combinations (item :: r)); [|apply output_message_same].
    destruct st; reflexivity. }
  split.
  { unfold show_all_courses.
    destruct (negb (sid_truthy (active_student_id st))); [destruct st; reflexivity|].
    destruct (active_courses st); destruct st; reflexivity. }
  unfold show_all_users.
  destruct (disk_file st) as [[|[|item r]]|] eqn:E;
    destruct st; cbn in E |- *; subst; repeat split.
Qed.

(** ** What a session keeps true *)

(** Reduction of the accessors of the state, and nothing else. *)
Ltac fields :=
  cbn [users_data active_student_id active_courses current_course_sections entry_student_id entry_course_name
       day_var start_hour_var start_min_var end_hour_var end_min_var current_sections_listbox saved_courses_listbox output_box disk_file write_error
       set_users_data set_active_student_id set_active_courses set_current_course_sections set_entry_student_id set_entry_course_name
       set_day_var set_start_hour_var set_start_min_var set_end_hour_var set_end_min_var
       set_current_sections_listbox set_saved_courses_listbox set_output_box set_disk_file set_write_error state_of] in *.

Lemma same_but_output_consistent (st st' : app) :
  same_but_output st' st -> consistent st -> consistent st'.
Proof.
  unfold same_but_output. destruct st, st'; cbn. intros H K.
  injection H; intros; subst. exact K.
Qed.

Lemma output_message_consistent (msg : string) (st : app) :
  consistent st -> consistent (output_message msg st).
Proof. apply same_but_output_consistent, output_message_same. Qed.

Lemma time_new_valid (h m : Z) (t : time) :
  time_new h m = inr t -> valid_time t /\ minute_resolution t.
Proof.
  unfold time_new.
  destruct (negb (fits_c_int h && fits_c_int m)); [discriminate|].
  destruct (Z.leb_spec 0 h); destruct (Z.leb_spec h 23); cbn [andb negb];
    try discriminate.
  destruct (Z.leb_spec 0 m); destruct (Z.leb_spec m 59); cbn [andb negb];
    try discriminate.
  intros K. injection K as <-. unfold valid_time, minute_resolution; simpl. lia.
Qed.

Lemma add_section_consistent (st : app) :
  consistent st -> consistent (state_of (add_section st)).
Proof.
  intros H.
  destruct (add_section_cases st)
    as [[(msg & ->) _]|[[(x & ->) _]|(s & e & Hs & He & K & ->)]]; cbn [state_of].
  - now apply output_message_consistent.
  - exact H.
  - destruct H as (H1 & H2 & H3 & H4 & H5 & H6 & H7).
    apply time_new_valid in Hs, He.
    destruct st; unfold consistent; fields. repeat split; try assumption.
    + rewrite map_app, H3. reflexivity.
    + apply Forall_app. split; [assumption|].
      constructor; [|constructor]. split; [exact K|].
      unfold to_the_minute, sec_start, sec_end; cbn. tauto.
Qed.

Lemma delete_section_consistent (selection : list nat) (st : app) :
  consistent st -> consistent (state_of (delete_section selection st)).
Proof.
  intros H. destruct selection as [|i rest].
  { now apply output_message_consistent. }
  destruct (Nat.lt_ge_cases i (List.length (current_course_sections st))) as [L|L].
  - destruct (delete_section_result st i rest L)
      as (st' & -> & Hc & Hl & Ha & Hs & Hu & Hf).
    destruct H as (H1 & H2 & H3 & H4 & H5 & H6 & H7).
    unfold consistent. cbn [state_of]. rewrite Hc, Hl, Ha, Hs, Hu, Hf.
    repeat split; try assumption.
    + rewrite H3. apply remove_nth_map.
    + rewrite Forall_forall in *. intros x Hx. apply H4.
      eapply remove_nth_In; eassumption.
  - destruct H as (H1 & H2 & H3 & H4 & H5 & H6 & H7).
    assert (E : remove_nth i (current_sections_listbox st)
                = current_sections_listbox st).
    { apply remove_nth_beyond. rewrite H3, length_map. exact L. }
    apply Nat.ltb_ge in L. unfold delete_section.
    destruct st; cbn in *. rewrite L. cbn. rewrite E.
    repeat split; assumption.
Qed.

Lemma save_course_consistent (st : app) :
  consistent st -> consistent (save_course st).
Proof.
  intros H. unfold save_course.
  destruct (negb (sid_truthy (active_student_id st)));
    [now apply output_message_consistent|].
  destruct (negb (str_truthy (strip (entry_course_name st))));
    [now apply output_message_consistent|].
  destruct (current_course_sections st) as [|x r] eqn:E;
    [now apply output_message_consistent|].
  destruct H as (H1 & H2 & H3 & H4 & H5 & H6 & H7).
  rewrite E in H4.
  remember (strip (entry_course_name st)) as name eqn:Hn. clear Hn.
  destruct st; cbn in *. repeat split; try assumption.
  - now apply dict_set_wf.
  - constructor.
  - intros c l Hc. apply dict_set_In in Hc as [Hc|Hc]; [|eauto].
    injection Hc as _ ->. exact H4.
Qed.

Lemma dict_del_wf {V : Type} (k : string) (d d' : dict V) :
  dict_wf d -> dict_del k d = Some d' -> dict_wf d'.
Proof.
  unfold dict_wf. revert d'.
  induction d as [|[k0 v0] r IH]; simpl; intros d' Hnd H; [discriminate|].
  inversion Hnd as [|? ? Hn Hr]; subst.
  destruct (String.eqb k k0).
  - injection H as <-. exact Hr.
  - destruct (dict_del k r) as [r'|] eqn:E; [|discriminate].
    injection H as <-. simpl. constructor; [|now apply IH].
    intros K. apply Hn. eapply dict_del_keys; eassumption.
Qed.

Lemma edit_course_consistent (selection : list nat) (st : app) :
  consistent st -> consistent (state_of (edit_course selection st)).
Proof.
  intros H. unfold edit_course. destruct selection as [|index rest].
  { now apply output_message_consistent. }
  destruct H as (H1 & H2 & H3 & H4 & H5 & H6 & H7).
  remember (nth index (saved_courses_listbox st) EmptyString) as c eqn:Hc.
  clear Hc.
  assert (Hs : Forall proper
                 match dict_get c (active_courses st) with
                 | Some l => l
                 | None => []
                 end).
  { destruct (dict_get c (active_courses st)) as [l|] eqn:E; [|constructor].
    apply dict_get_In in E. eauto. }
  destruct st; cbn in *.
  destruct (dict_del c active_courses0) as [d|] eqn:E; cbn;
    repeat split; cbn; try assumption.
  - eapply dict_del_wf; eassumption.
  - intros k l K. eapply H5. eapply dict_del_In; eassumption.
Qed.

Lemma delete_course_consistent (selection : list nat) (st : app) :
  consistent st -> consistent (delete_course selection st).
Proof.
  intros H. unfold delete_course. destruct selection as [|index rest].
  { now apply output_message_consistent. }
  destruct H as (H1 & H2 & H3 & H4 & H5 & H6 & H7).
  remember (nth index (saved_courses_listbox st) EmptyString) as c eqn:Hc.
  clear Hc.
  destruct st; cbn in *.
  destruct (dict_del c active_courses0) as [d|] eqn:E; cbn;
    repeat split; cbn; try assumption.
  - eapply dict_del_wf; eassumption.
  - intros k l K. eapply H5. eapply dict_del_In; eassumption.
Qed.

Lemma final_dict_In (c : string) (l : list stored_section)
    (active : dict (list section)) :
  In (c, l) (final_dict active) ->
  exists l0, In (c, l0) active /\ l = map string_section l0.
Proof.
  unfold final_dict.
  assert (G : forall items acc,
             In (c, l)
                (fold_left
                   (fun acc item =>
                      dict_set (fst item) (map string_section (snd item)) acc)
                   items acc) ->
             In (c, l) acc
             \/ exists l0, In (c, l0) items /\ l = map string_section l0).
  { induction items as [|[k v] r IH]; intros acc H; simpl in H; [now left|].
    apply IH in H as [H|(l0 & H & E)].
    - apply dict_set_In in H as [H|H]; [|now left].
      injection H as -> ->. right. exists v. split; [now left | reflexivity].
    - right. exists l0. split; [now right | exact E]. }
  intros H. apply G in H as [[]|H]. exact H.
Qed.

Lemma table_ok_set (sid : string) (u : user_record) (d : users_table) :
  table_ok d ->
  (forall c l, In (c, l) (courses u) -> Forall stored_proper l) ->
  table_ok (dict_set sid u d).
Proof.
  intros Hd Hu sid' u' c l H Hc.
  apply dict_set_In in H as [H|H].
  - injection H as _ ->. eauto.
  - eapply Hd; eassumption.
Qed.

Lemma ensure_student_table_ok (sid : string) (st : app) :
  table_ok (users_data st) -> table_ok (users_data (ensure_student sid st)).
Proof.
  intros H. unfold ensure_student.
  destruct (negb (dict_in sid (users_data st))); [|exact H].
  destruct st; fields. apply table_ok_set; [exact H | intros c l []].
Qed.

Lemma final_dict_stored_proper (active : dict (list section)) :
  catalog_proper active ->
  forall c l, In (c, l) (final_dict active) -> Forall stored_proper l.
Proof.
  intros H c l Hc. apply final_dict_In in Hc as (l0 & Hc & ->).
  specialize (H c l0 Hc). rewrite Forall_forall in *.
  intros y Hy. apply in_map_iff in Hy as (x & <- & Hx).
  exists x. split; [now apply H | reflexivity].
Qed.

Lemma save_student_data_consistent (auto : bool) (st : app) :
  consistent st -> consistent (save_student_data auto st).
Proof.
  intros H. unfold save_student_data.
  destruct (sid_truthy (active_student_id st)); cbn [negb].
  2:{ destruct auto; cbn [negb]; [exact H | now apply output_message_consistent]. }
  remember (sid_text (active_student_id st)) as sid eqn:Hsid. clear Hsid.
  destruct H as (H1 & H2 & H3 & H4 & H5 & H6 & H7).
  pose proof (ensure_student_table_ok sid st H6) as Ht.
  assert (E : active_courses (ensure_student sid st) = active_courses st
              /\ saved_courses_listbox (ensure_student sid st)
                 = saved_courses_listbox st
              /\ current_sections_listbox (ensure_student sid st)
                 = current_sections_listbox st
              /\ current_course_sections (ensure_student sid st)
                 = current_course_sections st
              /\ disk_file (ensure_student sid st) = disk_file st).
  { unfold ensure_student. destruct (negb (dict_in sid (users_data st)));
      destruct st; repeat split. }
  destruct E as (E1 & E2 & E3 & E4 & E5).
  destruct (ensure_student sid st) as [ud a ac cs es ec dv sh sm eh em cl sl ob df we].
  fields. subst.
  assert (Hnew : table_ok
                   (dict_set sid (mk_user (final_dict (active_courses st))) ud)).
  { apply table_ok_set; [exact Ht|]. now apply final_dict_stored_proper. }
  assert (Hfile : file_safe (Some (Json
                     (dict_set sid (mk_user (final_dict (active_courses st))) ud))))
    by (right; exact Hnew).
  assert (Hleft : file_safe (Some Unparsable)) by (left; reflexivity).
  destruct we as [[reason|reason]|], auto;
    unfold consistent, output_message, file_after_fault; fields;
    repeat split; assumption.
Qed.

Lemma parse_stored_proper (l : list stored_section) :
  Forall stored_proper l ->
  exists l', parse_sections l = inr l' /\ Forall proper l'.
Proof.
  induction l as [|y r IH]; intros H; [exists []; split; [reflexivity | constructor]|].
  inversion H as [|? ? Hy Hr]; subst.
  destruct Hy as ([[day st] et] & Hp & <-).
  destruct (IH Hr) as (l' & E & Hl').
  destruct Hp as (Hok & V1 & M1 & V2 & M2).
  change (sec_start (day, st, et)) with st in V1, M1.
  change (sec_end (day, st, et)) with et in V2, M2.
  cbn [string_section parse_sections].
  rewrite (string_to_time_to_string st V1 M1), (string_to_time_to_string et V2 M2), E.
  exists ((day, st, et) :: l'). split; [reflexivity|].
  constructor; [|exact Hl'].
  split; [exact Hok|]. unfold to_the_minute. tauto.
Qed.

Lemma load_courses_proper (items : list (string * list stored_section))
    (acc : dict (list section)) :
  (forall c l, In (c, l) items -> Forall stored_proper l) ->
  dict_wf acc -> catalog_proper acc ->
  exists acc',
    load_courses items acc = inr acc' /\ dict_wf acc' /\ catalog_proper acc'.
Proof.
  revert acc. induction items as [|[c0 l0] r IH]; intros acc Hi Hw Hp;
    cbn [load_courses]; [eauto|].
  destruct (parse_stored_proper l0) as (ts & -> & Hts); [apply (Hi c0); now left|].
  apply IH.
  - intros c l Hc. apply (Hi c). now right.
  - now apply dict_set_wf.
  - intros c l Hc. apply dict_set_In in Hc as [Hc|Hc]; [|eauto].
    injection Hc as _ ->. exact Hts.
Qed.

Lemma read_data_file_table_ok (st : app) :
  table_ok (users_data st) -> file_safe (disk_file st) ->
  table_ok (users_data (read_data_file st)).
Proof.
  intros H1 H2. unfold read_data_file.
  destruct (disk_file st) as [[|d]|]; [ | | exact H1].
  - destruct st; fields. intros sid u c l [].
  - destruct H2 as [H2|H2]; [discriminate|]. destruct st; exact H2.
Qed.

Lemma ensure_student_present (sid : string) (st : app) :
  exists u,
    dict_get sid (users_data (ensure_student sid st)) = Some u
    /\ In (sid, u) (users_data (ensure_student sid st)).
Proof.
  unfold ensure_student, dict_in.
  destruct (dict_get sid (users_data st)) as [u|] eqn:E; cbn [negb].
  - exists u. split; [exact E | now apply dict_get_In].
  - exists (mk_user []). destruct st; fields.
    split; [apply dict_get_set_same|]. apply dict_get_In, dict_get_set_same.
Qed.

Lemma load_student_data_consistent (st : app) :
  consistent st ->
  exists st', load_student_data st = Done st' /\ consistent st'.
Proof.
  intros H. unfold load_student_data.
  destruct (negb (str_truthy (strip (entry_student_id st)))).
  { eexists. split; [reflexivity | now apply output_message_consistent]. }
  remember (strip (entry_student_id st)) as sid eqn:Hsid. clear Hsid.
  destruct H as (H1 & H2 & H3 & H4 & H5 & H6 & H7).
  pose proof (ensure_student_table_ok sid _ (read_data_file_table_ok st H6 H7)) as Ht.
  destruct (ensure_student_present sid (read_data_file st)) as (u & Hg & Hin).
  assert (E : current_sections_listbox (ensure_student sid (read_data_file st))
              = current_sections_listbox st
              /\ current_course_sections (ensure_student sid (read_data_file st))
                 = current_course_sections st
              /\ disk_file (ensure_student sid (read_data_file st)) = disk_file st).
  { unfold ensure_student, read_data_file.
    destruct (disk_file st) as [[|d]|] eqn:Ef;
      match goal with
      | |- context [negb (dict_in sid ?t)] => destruct (negb (dict_in sid t))
      end;
      destruct st; fields; subst; repeat split. }
  destruct E as (E3 & E4 & E5).
  destruct (ensure_student sid (read_data_file st))
    as [ud a ac cs es ec dv sh sm eh em cl sl ob df we].
  fields. subst. rewrite Hg.
  destruct (load_courses_proper (courses u) []) as (acc & -> & Hw & Hp).
  - intros c l Hc. eapply Ht; eassumption.
  - constructor.
  - intros c l [].
  - eexists. split; [reflexivity|].
    unfold consistent, output_message, refresh_saved_courses_listbox; fields.
    repeat split; assumption.
Qed.

Lemma show_all_users_consistent (st : app) :
  consistent st -> consistent (show_all_users st).
Proof.
  intros H. unfold show_all_users.
  destruct (disk_file st) as [[|d]|] eqn:E;
    try (now apply output_message_consistent).
  destruct H as (H1 & H2 & H3 & H4 & H5 & H6 & H7).
  rewrite E in H7.
  assert (Ht : table_ok d) by (destruct H7 as [H7|H7]; [discriminate | exact H7]).
  destruct d as [|item r]; destruct st; unfold consistent; fields; subst;
    repeat split; assumption.
Qed.

Lemma generate_schedules_same (st : app) :
  same_but_output (generate_schedules st) st.
Proof.
  unfold generate_schedules.
  destruct (negb (sid_truthy (active_student_id st)));
    [apply output_message_same|].
  destruct (active_courses st) as [|item r]; [apply output_message_same|].
  destruct (all_combinations (item :: r)); [|apply output_message_same].
  destruct st; reflexivity.
Qed.

Lemma show_all_courses_same (st : app) :
  same_but_output (show_all_courses st) st.
Proof.
  unfold show_all_courses.
  destruct (negb (sid_truthy (active_student_id st))); [destruct st; reflexivity|].
  destruct (active_courses st); destruct st; reflexivity.
Qed.

Lemma perform_consistent (a : action) (st : app) :
  consistent st -> consistent (state_of (perform a st)).
Proof.
  intros H. destruct a; cbn [perform state_of];
    try (destruct st; exact H).
  - destruct (load_student_data_consistent st H) as (st' & -> & H'). exact H'.
  - now apply save_student_data_consistent.
  - unfold auto_save. destruct (sid_truthy (active_student_id st));
      [now apply save_student_data_consistent | exact H].
  - now apply show_all_users_consistent.
  - now apply add_section_consistent.
  - now apply delete_section_consistent.
  - now apply save_course_consistent.
  - now apply edit_course_consistent.
  - now apply delete_course_consistent.
  - eapply same_but_output_consistent; [apply show_all_courses_same | exact H].
  - eapply same_but_output_consistent; [apply generate_schedules_same | exact H].
Qed.

Lemma run_consistent (actions : list action) (st : app) :
  consistent st -> consistent (run actions st).
Proof.
  unfold run. revert st. induction actions as [|a r IH]; intros st H; [exact H|].
  simpl. apply IH. now apply perform_consistent.
Qed.

Lemma init_consistent (fs : option file_contents) (err : option write_fault) :
  file_ok fs -> consistent (init fs err).
Proof.
  intros H. unfold consistent, init; fields.
  split; [constructor|]. split; [reflexivity|]. split; [reflexivity|].
  split; [constructor|]. split; [intros c l []|].
  split; [intros sid u c l [] | right; exact H].
Qed.

Lemma edit_course_listed (st : app) (i : nat) (rest : list nat) :
  dict_wf (active_courses st) ->
  saved_courses_listbox st = dict_keys (active_courses st) ->
  (i < List.length (saved_courses_listbox st))%nat ->
  exists st', edit_course (i :: rest) st = Done st'.
Proof.
  intros Hwf Hl Hi.
  destruct (nth_error (saved_courses_listbox st) i) as [c|] eqn:En;
    [|apply nth_error_None in En; lia].
  assert (Hc : In c (dict_keys (active_courses st)))
    by (rewrite <- Hl; eapply nth_error_In; eassumption).
  destruct (dict_get_key _ _ Hc) as [sections Hg].
  destruct (dict_del_present c (active_courses st) sections Hg) as (d & Hd & _).
  destruct (edit_course_done st i rest c sections d En Hg Hd) as (st' & He & _).
  eauto.
Qed.

(** X20. In such a session no callback ends in an exception:
    [load_student_data] always returns, [edit_course] returns for every
    position of the list of saved courses, and [delete_section] returns for
    every position of the list of pending sections. *)
Theorem session_never_raises :
  forall (actions : list action) (fs : option file_contents) (err : option write_fault),
    file_ok fs ->
    (exists st', load_student_data (run actions (init fs err)) = Done st')
    /\ (forall i rest,
          (i < List.length (saved_courses_listbox (run actions (init fs err))))%nat ->
          exists st', edit_course (i :: rest) (run actions (init fs err)) = Done st')
    /\ (forall i rest,
          (i < List.length (current_sections_listbox (run actions (init fs err))))%nat ->
          exists st', delete_section (i :: rest) (run actions (init fs err)) = Done st').
Proof.
  intros actions fs err H.
  pose proof (run_consistent actions (init fs err) (init_consistent fs err H)) as K.
  split.
  { destruct (load_student_data_consistent _ K) as (st' & E & _). eauto. }
  destruct K as (H1 & H2 & H3 & _).
  split.
  - intros i rest Hi. now apply edit_course_listed.
  - intros i rest Hi. rewrite H3, length_map in Hi.
    destruct (delete_section_result _ i rest Hi) as (st' & E & _). eauto.
Qed.

Lemma session_never_raises_witness :
  exists st',
    load_student_data
      (run [TypeStudentId "s1"; ClickLoad; TypeCourseName "Math";
            ClickAddSection; ClickSaveCourse; ClickSave]
           (init None None))
    = Done st'.
Proof.
  refine (proj1 (session_never_raises
                   [TypeStudentId "s1"; ClickLoad; TypeCourseName "Math";
                    ClickAddSection; ClickSaveCourse; ClickSave]
                   None None _)).
  exact I.
Defined.

(** X21. Opening a course in the editor and saving it again unchanged
    brings the catalog back, course for course, but not in the same order:
    the course now comes last, after the courses that followed it, so the
    schedules are generated with its sections varying fastest. *)
Theorem edit_then_save_moves_course_last :
  forall (st : app) (index : nat) (rest : list nat) (c : string)
         (sections : list section),
    dict_wf (active_courses st) ->
    nth_error (saved_courses_listbox st) index = Some c ->
    dict_get c (active_courses st) = Some sections ->
    sections <> [] ->
    sid_truthy (active_student_id st) = true ->
    strip c = c -> str_truthy c = true ->
    exists st' d,
      edit_course (index :: rest) st = Done st'
      /\ dict_del c (active_courses st) = Some d
      /\ active_courses (save_course st') = d ++ [(c, sections)]
      /\ (forall k, dict_get k (active_courses (save_course st'))
                    = dict_get k (active_courses st)).
Proof.
  intros st index rest c sections Hwf Hn Hg Hne Ha Hs Ht.
  destruct (dict_del_present c (active_courses st) sections Hg)
    as (d & Hd & Hother & Hw).
  destruct (Hw Hwf) as [Hnone _].
  destruct (edit_course_done st index rest c sections d Hn Hg Hd)
    as (st' & He & Hac & _ & Hen & Hcs & _ & _ & Hsid & _).
  exists st', d. split; [exact He|]. split; [exact Hd|].
  destruct sections as [|x r]; [congruence|].
  rewrite <- Hsid in Ha.
  assert (E : active_courses (save_course st') = dict_set c (x :: r) d).
  { rewrite (save_course_done st' x r Ha); rewrite ?Hen, ?Hs, ?Hac;
      [reflexivity | exact Ht | exact Hcs]. }
  rewrite E. split.
  - apply dict_set_fresh. now apply dict_get_none_keys.
  - intros k. destruct (string_dec k c) as [->|Hk].
    + now rewrite dict_get_set_same.
    + rewrite dict_get_set_other by assumption. now apply Hother.
Qed.

Lemma edit_then_save_moves_course_last_witness :
  exists st' d,
    edit_course [0%nat] (refresh_saved_courses_listbox (session None None)) = Done st'
    /\ dict_del "Math" catalog_A = Some d
    /\ active_courses (save_course st')
       = d ++ [("Math", [("Mon", hm 8 0, hm 9 0); ("Mon", hm 9 30, hm 10 30)])].
Proof.
  destruct (edit_then_save_moves_course_last
              (refresh_saved_courses_listbox (session None None)) 0%nat [] "Math"
              [("Mon", hm 8 0, hm 9 0); ("Mon", hm 9 30, hm 10 30)])
    as (st' & d & H1 & H2 & H3 & _); try reflexivity.
  - unfold dict_wf; simpl. repeat constructor; simpl; intuition discriminate.
  - discriminate.
  - exists st', d. split; [exact H1|]. split; [exact H2 | exact H3].
Defined.

(** * Saving, loading and editing over a session *)

(** ** Reporting a failed write *)




(** ** Loading what was saved *)

(** C8. A time to the minute survives [time_to_string] followed by
    [string_to_time]; and a save that reaches the disk leaves a file that
    holds the catalog in its [HH:MM] form, from which a load of the same
    student id, in whatever session reads that file (the same one, or a new
    one that has nothing in memory), returns with the catalog as it was
    saved, provided its times are to the minute. *)
Theorem save_then_load_roundtrip :
  (forall t : time,
      valid_time t -> minute_resolution t ->
      string_to_time (time_to_string t) = inr t)
  /\ (forall (st : app) (auto : bool) (sid : string),
         active_student_id st = Some sid -> str_truthy sid = true ->
         write_error st = None ->
         dict_wf (active_courses st) ->
         catalog_minute_resolution (active_courses st) ->
         (exists d,
             disk_file (save_student_data auto st) = Some (Json d)
             /\ dict_get sid d
                = Some (mk_user (map string_course (active_courses st))))
         /\ forall st0 : app,
              disk_file st0 = disk_file (save_student_data auto st) ->
              strip (entry_student_id st0) = sid ->
              exists st',
                load_student_data st0 = Done st'
                /\ active_student_id st' = Some sid
                /\ active_courses st' = active_courses st
                /\ saved_courses_listbox st' = dict_keys (active_courses st)).
Proof.
  split; [exact string_to_time_to_string|].
  intros st auto sid Ha Ht Hw Hwf Hm.
  destruct (save_student_data_written st auto sid Ha Ht Hw)
    as (Hu & Hf & _ & _ & _).
  assert (Hg : dict_get sid (users_data (save_student_data auto st))
               = Some (mk_user (final_dict (active_courses st))))
    by (rewrite Hu; apply dict_get_set_same).
  split.
  - exists (users_data (save_student_data auto st)).
    split; [exact Hf|]. rewrite Hg. now rewrite final_dict_map.
  - intros st0 H0 He.
    destruct (load_student_data_parsed st0 sid
                (users_data (save_student_data auto st))
                (mk_user (final_dict (active_courses st)))
                (active_courses st))
      as (st' & Hl & H1 & H2 & _ & _ & H5).
    + exact He.
    + exact Ht.
    + now rewrite H0.
    + exact Hg.
    + now apply load_saved_courses.
    + exists st'. split; [exact Hl|]. split; [exact H1|].
      split; [exact H2 | exact H5].
Qed.

Lemma save_then_load_roundtrip_witness :
  string_to_time (time_to_string (hm 14 0)) = inr (hm 14 0)
  /\ exists st',
       load_student_data
         (set_entry_student_id "s1"
            (init (disk_file (save_student_data false (session None None))) None))
       = Done st'
       /\ active_courses st' = catalog_A.
Proof.
  split.
  - apply (proj1 save_then_load_roundtrip (hm 14 0)).
    + unfold valid_time; simpl; lia.
    + split; reflexivity.
  - destruct (proj2 (proj2 save_then_load_roundtrip (session None None) false "s1"
                           eq_refl eq_refl eq_refl
                           ltac:(unfold dict_wf; simpl; repeat constructor;
                                 simpl; intuition discriminate)
                           ltac:(intros c l x Hc Hx; simpl in Hc;
                                 destruct Hc as [Hc|[Hc|[]]];
                                 injection Hc as <- <-; simpl in Hx;
                                 repeat (destruct Hx as [<-|Hx]);
                                 try (destruct Hx);
                                 unfold valid_time, minute_resolution;
                                 simpl; lia))
                    (set_entry_student_id "s1"
                       (init (disk_file
                                (save_student_data false (session None None)))
                             None))
                    eq_refl eq_refl)
      as (st' & H & _ & Hc & _).
    exists st'. split; [exact H | exact Hc].
Defined.

(** ** What the spin boxes may hold *)





(** ** Looking at another student *)

Lemma load_student_data_activates (st : app) :
  str_truthy (strip (entry_student_id st)) = true ->
  active_student_id (state_of (load_student_data st))
  = Some (strip (entry_student_id st)).
Proof.
  intros Ht. unfold load_student_data. rewrite Ht. cbn [negb].
  remember (strip (entry_student_id st)) as sid eqn:Hsid. clear Hsid Ht.
  unfold read_data_file, ensure_student.
  destruct st as [ud a ac cs es ec dv sh sm eh em cl sl ob df we].
  cbn [disk_file]. destruct df as [[|d]|];
    cbn [users_data set_users_data];
    match goal with
    | |- context [negb (dict_in sid ?t)] => destruct (negb (dict_in sid t))
    end;
    cbn [users_data set_users_data set_active_student_id set_active_courses];
    match goal with
    | |- context [dict_get sid ?t] => destruct (dict_get sid t) as [u|]
    end;
    try (destruct (load_courses (courses u) []) as [[e acc]|acc]);
    reflexivity.
Qed.

(** X16. After a save that reaches the disk, typing the id of another
    student and loading makes that student the active one, with an empty
    catalog when the table did not know the id, and leaves the file as the
    save wrote it; typing the first id again and loading then returns with
    the first student active and the catalog as it was saved, provided its
    times are to the minute. *)
Theorem save_switch_load_roundtrip :
  forall (st : app) (auto : bool) (sid other : string),
    active_student_id st = Some sid -> str_truthy sid = true ->
    strip (entry_student_id st) = sid ->
    write_error st = None ->
    dict_wf (active_courses st) ->
    catalog_minute_resolution (active_courses st) ->
    str_truthy (strip other) = true -> strip other <> sid ->
    active_student_id
      (state_of (load_student_data
                   (set_entry_student_id other (save_student_data auto st))))
    = Some (strip other)
    /\ disk_file
         (state_of (load_student_data
                      (set_entry_student_id other (save_student_data auto st))))
       = disk_file (save_student_data auto st)
    /\ (dict_get (strip other) (users_data st) = None ->
        exists st2,
          load_student_data
            (set_entry_student_id other (save_student_data auto st)) = Done st2
          /\ active_courses st2 = []
          /\ saved_courses_listbox st2 = [])
    /\ exists st',
         load_student_data
           (set_entry_student_id (entry_student_id st)
              (state_of
                 (load_student_data
                    (set_entry_student_id other (save_student_data auto st)))))
         = Done st'
         /\ active_student_id st' = Some sid
         /\ active_courses st' = active_courses st
         /\ saved_courses_listbox st' = dict_keys (active_courses st).
Proof.
  intros st auto sid other Ha Ht He Hw Hwf Hm Hto Hne.
  destruct (save_student_data_written st auto sid Ha Ht Hw)
    as (Hu & Hf & _ & _ & _).
  remember (save_student_data auto st) as st1 eqn:E1. clear E1.
  assert (En : entry_student_id (set_entry_student_id other st1) = other)
    by (destruct st1; reflexivity).
  assert (Hd : disk_file (set_entry_student_id other st1) = disk_file st1)
    by (destruct st1; reflexivity).
  assert (Hud : users_data (set_entry_student_id other st1) = users_data st1)
    by (destruct st1; reflexivity).
  remember (set_entry_student_id other st1) as st1' eqn:E1'. clear E1'.
  split.
  { rewrite load_student_data_activates; rewrite En; [reflexivity | exact Hto]. }
  assert (Hf2 : disk_file (state_of (load_student_data st1')) = disk_file st1).
  { rewrite (proj1 (load_student_data_frame st1')). exact Hd. }
  split; [exact Hf2|].
  split.
  { intros Hnone.
    destruct (load_student_data_unknown st1' (strip other) (users_data st1))
      as (st2 & Hl & _ & Hc & Hb & _).
    - now rewrite En.
    - exact Hto.
    - now rewrite Hd.
    - rewrite Hu, dict_get_set_other by exact Hne.
      now rewrite ensure_student_other by exact Hne.
    - exists st2. split; [exact Hl|]. split; [exact Hc | exact Hb]. }
  remember (state_of (load_student_data st1')) as st2 eqn:E2. clear E2.
  destruct (load_student_data_parsed
              (set_entry_student_id (entry_student_id st) st2) sid
              (users_data st1)
              (mk_user (final_dict (active_courses st)))
              (active_courses st))
    as (st' & Hl & H1 & H2 & _ & _ & H5).
  - destruct st2; exact He.
  - exact Ht.
  - rewrite <- Hf, <- Hf2. destruct st2; reflexivity.
  - rewrite Hu. apply dict_get_set_same.
  - now apply load_saved_courses.
  - exists st'. split; [exact Hl|]. split; [exact H1|].
    split; [exact H2 | exact H5].
Qed.

Lemma save_switch_load_roundtrip_witness :
  active_student_id
    (state_of (load_student_data
                 (set_entry_student_id "s2"
                    (save_student_data false (session None None)))))
  = Some "s2"
  /\ exists st',
       load_student_data
         (set_entry_student_id "s1"
            (state_of
               (load_student_data
                  (set_entry_student_id "s2"
                     (save_student_data false (session None None))))))
       = Done st'
       /\ active_courses st' = catalog_A.
Proof.
  destruct (save_switch_load_roundtrip (session None None) false "s1" "s2")
    as (H1 & _ & _ & st' & H & _ & Hc & _); try reflexivity.
  - unfold dict_wf; simpl. repeat constructor; simpl; intuition discriminate.
  - intros c l x Hc Hx. simpl in Hc.
    destruct Hc as [Hc|[Hc|[]]]; injection Hc as <- <-; simpl in Hx;
      repeat (destruct Hx as [<-|Hx]);
      try (destruct Hx);
      unfold valid_time, minute_resolution; simpl; lia.
  - discriminate.
  - split; [exact H1|]. exists st'. split; [exact H | exact Hc].
Defined.

(** ** What every state of a session satisfies *)

Lemma init_consistent_safe (fs : option file_contents) (err : option write_fault) :
  file_safe fs -> consistent (init fs err).
Proof.
  intros H. unfold consistent, init; fields.
  split; [constructor|]. split; [reflexivity|]. split; [reflexivity|].
  split; [constructor|]. split; [intros c l []|].
  split; [intros sid u c l [] | exact H].
Qed.


(** X19. Start on a disk without the data file, or with one that does not
    parse, or with one that holds only [HH:MM] forms of sections that end
    after they start, and let the user type, pick, click and the timer tick
    in any order, the writes succeeding, failing at [open] or failing after
    it: at every point the catalog holds each course name once, the two list
    boxes show the catalog and the pending sections, every section in the
    editor and the catalog ends strictly after it starts and is to the
    minute, every section in the table of students is the [HH:MM] form of
    such a section, and the file, unless a failed write has left it
    unparsable, holds only such forms. *)
Theorem session_stays_consistent :
  forall (actions : list action) (fs : option file_contents)
         (err : option write_fault),
    file_safe fs ->
    dict_wf (active_courses (run actions (init fs err)))
    /\ saved_courses_listbox (run actions (init fs err))
       = dict_keys (active_courses (run actions (init fs err)))
    /\ current_sections_listbox (run actions (init fs err))
       = map section_line (current_course_sections (run actions (init fs err)))
    /\ Forall proper (current_course_sections (run actions (init fs err)))
    /\ catalog_proper (active_courses (run actions (init fs err)))
    /\ table_ok (users_data (run actions (init fs err)))
    /\ (disk_file (run actions (init fs err)) = Some Unparsable
        \/ file_ok (disk_file (run actions (init fs err)))).
Proof.
  intros actions fs err H.
  exact (run_consistent actions (init fs err) (init_consistent_safe fs err H)).
Qed.

Lemma session_stays_consistent_witness :
  catalog_proper
    (active_courses
       (run [TypeStudentId "s1"; ClickLoad; TypeCourseName "Math";
             ClickAddSection; ClickSaveCourse;
             DiskWrites (Some (WriteFails "No space left on device"));
             ClickSave; ClickLoad]
            (init None None))).
Proof.
  refine (proj1 (proj2 (proj2 (proj2 (proj2
            (session_stays_consistent
               [TypeStudentId "s1"; ClickLoad; TypeCourseName "Math";
                ClickAddSection; ClickSaveCourse;
                DiskWrites (Some (WriteFails "No space left on device"));
                ClickSave; ClickLoad]
               None None _)))))).
  right. exact I.
Defined.

(** ** Intervals that end before they start *)

(** C9, refuted as stated.  A data file that holds, for student [s1], a
    section from 23:00 to 01:00 is loaded as it is: [load_student_data]
    returns with that section in the catalog, although it does not end after
    it starts; so not every section a session holds does. *)
Lemma load_keeps_backwards_section :
  exists st',
    load_student_data late_session = Done st'
    /\ active_courses st' = [("Night", [("Tue", hm 23 0, hm 1 0)])]
    /\ ~ section_ok ("Tue", hm 23 0, hm 1 0)
    /\ ~ all_sections_ok st'
    /\ ~ (forall (actions : list action) (fs : option file_contents),
             all_sections_ok (run actions (init fs None))).
Proof.
  assert (Hs : ~ section_ok ("Tue", hm 23 0, hm 1 0)).
  { unfold section_ok, time_before; simpl. lia. }
  assert (Hc : active_courses (state_of (load_student_data late_session))
               = [("Night", [("Tue", hm 23 0, hm 1 0)])])
    by (vm_compute; reflexivity).
  assert (Hr : run [TypeStudentId "s1"; ClickLoad] (init (Some (Json late_table)) None)
               = state_of (load_student_data late_session))
    by reflexivity.
  assert (Hn : ~ all_sections_ok (state_of (load_student_data late_session))).
  { intros [_ H].
    specialize (H "Night" [("Tue", hm 23 0, hm 1 0)]).
    rewrite Hc in H. specialize (H (or_introl eq_refl)).
    inversion H as [|x l Hx Hl]; subst. exact (Hs Hx). }
  exists (state_of (load_student_data late_session)).
  split; [vm_compute; reflexivity|].
  split; [exact Hc|]. split; [exact Hs|]. split; [exact Hn|].
  intros H. apply Hn. rewrite <- Hr. apply H.
Qed.



(** ** A course taken into the editor *)







(** C10, refuted as stated.  With the catalog of [s1] saved, [edit_course]
    on [Phys] takes the course out of the catalog, and a click on New/Load,
    with no [save_course] in between, reads the file again: the catalog
    holds [Phys] as before. *)
Lemma edit_then_load_restores_course :
  exists st' st'',
    edit_course [1%nat] saved_A = Done st'
    /\ dict_get "Phys" (active_courses st') = None
    /\ load_student_data st' = Done st''
    /\ dict_get "Phys" (active_courses st'') = Some [("Mon", hm 8 30, hm 9 15)]
    /\ run [ClickEditCourse [1%nat]; ClickLoad] saved_A = st''.
Proof.
  exists (state_of (edit_course [1%nat] saved_A)),
         (state_of (load_student_data (state_of (edit_course [1%nat] saved_A)))).
  split; [vm_compute; reflexivity|].
  split; [vm_compute; reflexivity|].
  split; [vm_compute; reflexivity|].
  split; [vm_compute; reflexivity|].
  reflexivity.
Qed.


